(** * Helpdesk ticket tracker: the ticket lifecycle of [tickets/models.py]
      and [tickets/views.py], embedded over an explicit database state. *)

From Stdlib Require Import ZArith String Ascii List Lia DecimalString.
From stdpp Require Import gmap strings list sorting.

Local Open Scope string_scope.
Local Open Scope nat_scope.

(** ** Time

    [datetime] values are counted in microseconds (the resolution of
    Python's [datetime]); a [timedelta] is a signed number of them. *)

Definition datetime := Z.

Definition timedelta (hours minutes : Z) : Z :=
  ((hours * 3600 + minutes * 60) * 1000000)%Z.

(** ** tickets/models.py *)

Module Models.

Record Department := { dept_name : string }.

(** [django.contrib.auth.models.User]: the fields the views read. *)
Record User := {
  user_id : nat;
  username : string;
  is_superuser : bool
}.

(** [django.contrib.auth.models.Group] with its [user_set] relation. *)
Record Group := {
  group_name : string;
  user_set : gset nat
}.

Definition PRIORITY_CHOICES : list string := ["low"; "medium"; "high"; "urgent"].
Definition STATUS_CHOICES : list string := ["pending"; "in_progress"; "completed"].

(** A row of the ticket table; the primary key is the key of the table.
    Foreign keys hold the primary key of the row they point to.  [status]
    and [priority] are [CharField]s: [choices] is not enforced by
    [save()], so the columns hold arbitrary strings. *)
Record Ticket := {
  title : string;
  description : string;
  created_by : nat;
  agent : option nat;
  handler : option nat;
  department : option nat;
  status : string;
  completed_at : option datetime;
  created_at : datetime;
  sla_due : option datetime;
  priority : string
}.

Record Comment := {
  comment_ticket : nat;
  comment_user : nat;
  comment_text : string;
  comment_created_at : datetime
}.

Definition is_completed (self : Ticket) : bool :=
  String.eqb (status self) "completed".

(** [if not self.completed_at: return False]; a [datetime] is always
    truthy, so the test is a test for [None].  [hours] is read within the
    range of [timedelta], -23999999976 to 23999999999: beyond it the
    source's [timedelta(hours=hours)] raises [OverflowError]. *)
Definition completed_within_hours (self : Ticket) (hours : Z) : bool :=
  match completed_at self with
  | None => false
  | Some c => (c - created_at self <=? timedelta hours 0)%Z
  end.

Definition sla_status (self : Ticket) : string :=
  if negb (String.eqb (status self) "completed") then "open"
  else if completed_within_hours self 4 then "on_time"
  else "delayed".

(** Field assignment [ticket.f = v]. *)
Definition set_agent (v : option nat) (t : Ticket) : Ticket :=
  {| title := title t; description := description t;
     created_by := created_by t; agent := v; handler := handler t;
     department := department t; status := status t;
     completed_at := completed_at t; created_at := created_at t;
     sla_due := sla_due t; priority := priority t |}.

Definition set_handler (v : option nat) (t : Ticket) : Ticket :=
  {| title := title t; description := description t;
     created_by := created_by t; agent := agent t; handler := v;
     department := department t; status := status t;
     completed_at := completed_at t; created_at := created_at t;
     sla_due := sla_due t; priority := priority t |}.

Definition set_department (v : option nat) (t : Ticket) : Ticket :=
  {| title := title t; description := description t;
     created_by := created_by t; agent := agent t; handler := handler t;
     department := v; status := status t;
     completed_at := completed_at t; created_at := created_at t;
     sla_due := sla_due t; priority := priority t |}.

Definition set_status (v : string) (t : Ticket) : Ticket :=
  {| title := title t; description := description t;
     created_by := created_by t; agent := agent t; handler := handler t;
     department := department t; status := v;
     completed_at := completed_at t; created_at := created_at t;
     sla_due := sla_due t; priority := priority t |}.

Definition set_completed_at (v : option datetime) (t : Ticket) : Ticket :=
  {| title := title t; description := description t;
     created_by := created_by t; agent := agent t; handler := handler t;
     department := department t; status := status t;
     completed_at := v; created_at := created_at t;
     sla_due := sla_due t; priority := priority t |}.

Definition set_priority (v : string) (t : Ticket) : Ticket :=
  {| title := title t; description := description t;
     created_by := created_by t; agent := agent t; handler := handler t;
     department := department t; status := status t;
     completed_at := completed_at t; created_at := created_at t;
     sla_due := sla_due t; priority := v |}.

End Models.

Import Models.

(** ** tickets/views.py *)

Module Views.

(** *** The request, the database and the response *)

Inductive Method := GET | POST.

(** [request.session]: the two keys the views read. *)
Record Session := {
  handler_logged_in : bool;
  handler_user : option string
}.

(** [user] is [None] for Django's [AnonymousUser]. *)
Record Request := {
  method : Method;
  user : option User;
  session : Session
}.

(** The tables, each keyed by primary key. *)
Record Database := {
  groups : gmap nat Group;
  departments : gmap nat Department;
  tickets : gmap nat Ticket;
  comments : gmap nat Comment
}.

Inductive Level := Success | Error.

(** [Http404] is what [get_object_or_404] raises; [IntegrityError] is the
    database refusing a null in a column that is not nullable. *)
Inductive Response :=
| Redirect (to : string)
| Render (template : string) (rows : list (nat * Ticket))
| Http404
| IntegrityError.

(** What a view leaves behind: its response, the flash messages it
    queued and the database. *)
Record Outcome := {
  response : Response;
  messages : list (Level * string);
  db : Database
}.

Definition respond (r : Response) (msgs : list (Level * string))
    (d : Database) : Outcome :=
  {| response := r; messages := msgs; db := d |}.

Definition with_tickets (ts : gmap nat Ticket) (d : Database) : Database :=
  {| groups := groups d; departments := departments d;
     tickets := ts; comments := comments d |}.

(** *** The ORM operations the views use *)

(** Truth value of [request.POST.get(key)]: [None] and the empty string
    are false. *)
Definition truthy (v : option string) : bool :=
  match v with
  | Some s => negb (String.eqb s "")
  | None => false
  end.

(** [value == literal] for a [request.POST.get] value. *)
Definition equals (v : option string) (literal : string) : bool :=
  match v with
  | Some s => String.eqb s literal
  | None => false
  end.

(** [fk == user] on a nullable foreign key: model instances are equal
    when their primary keys are. *)
Definition fk_is (fk : option nat) (u : User) : bool :=
  match fk with
  | Some k => Nat.eqb k (user_id u)
  | None => false
  end.

(** [fk is None] *)
Definition is_None {A} (o : option A) : bool :=
  match o with Some _ => false | None => true end.

(** [ORDER BY pk]: what [.first()] imposes on an unordered queryset. *)
Definition by_pk {V} : relation (nat * V) := λ a b, (a.1 ≤ b.1)%nat.

#[global] Instance by_pk_dec {V} (a b : nat * V) : Decision (by_pk a b).
Proof. unfold by_pk. apply _. Defined.

#[global] Instance by_pk_total {V} : Total (@by_pk V).
Proof. intros a b. unfold by_pk. lia. Qed.

#[global] Instance by_pk_trans {V} : Transitive (@by_pk V).
Proof. intros a b c. unfold by_pk. lia. Qed.

(** [queryset.first()] on a table of rows. *)
Definition first {V} (qs : gmap nat V) : option (nat * V) :=
  head (merge_sort by_pk (map_to_list qs)).

(** [group.user_set.first()]: the member with the least primary key. *)
Definition user_set_first (g : Group) : option nat :=
  head (merge_sort le (elements (user_set g))).

(** [.order_by('-created_at')] *)
Definition created_at_desc : relation (nat * Ticket) :=
  λ a b, (created_at b.2 ≤ created_at a.2)%Z.

#[global] Instance created_at_desc_dec (a b : nat * Ticket) :
  Decision (created_at_desc a b).
Proof. unfold created_at_desc. apply _. Defined.

#[global] Instance created_at_desc_total : Total created_at_desc.
Proof. intros a b. unfold created_at_desc. lia. Qed.

#[global] Instance created_at_desc_trans : Transitive created_at_desc.
Proof. intros a b c. unfold created_at_desc. lia. Qed.

Definition order_by_created_at_desc (qs : gmap nat Ticket) : list (nat * Ticket) :=
  merge_sort created_at_desc (map_to_list qs).

(** [queryset.update(status='completed', completed_at=now)] on the rows
    that satisfy [p]; the others are not written. *)
Definition update_where (p : Ticket → bool) (f : Ticket → Ticket)
    (ts : gmap nat Ticket) : gmap nat Ticket :=
  (λ t, if p t then f t else t) <$> ts.

(** [ticket.delete()] / [queryset.delete()]: the rows go, and with them
    every comment whose [ticket] foreign key points to one of them
    ([on_delete=models.CASCADE]). *)
Definition delete_tickets (ids : gset nat) (d : Database) : Database :=
  {| groups := groups d; departments := departments d;
     tickets := filter (λ kv, kv.1 ∉ ids) (tickets d);
     comments := filter (λ kc, comment_ticket kc.2 ∉ ids) (comments d) |}.

(** [Ticket.objects.create(...)]: the database picks an unused key;
    [status], [priority], [agent], [completed_at] and [sla_due] take their
    column defaults, [created_at] is [auto_now_add]. *)
Definition create_ticket (title description : string) (created_by : nat)
    (handler department : option nat) (now : datetime) (d : Database)
    : nat * Ticket :=
  (fresh (dom (tickets d)),
   {| title := title; description := description;
      created_by := created_by; agent := None; handler := handler;
      department := department; status := "pending";
      completed_at := None; created_at := now; sla_due := None;
      priority := "medium" |}).

(** *** Role tests and decorators *)

Definition is_admin (u : User) : bool := is_superuser u.

(** [user.groups.filter(name=...).exists()] *)
Definition in_group (name : string) (d : Database) (u : User) : bool :=
  existsb (λ kg : nat * Group,
             String.eqb (group_name kg.2) name
             && bool_decide (user_id u ∈ user_set kg.2))
          (map_to_list (groups d)).

Definition is_agent : Database → User → bool := in_group "Agent".
Definition is_handler : Database → User → bool := in_group "Handler".

(** [@login_required]: an anonymous request is sent to the login page. *)
Definition login_required (req : Request) (d : Database)
    (view : User → Outcome) : Outcome :=
  match user req with
  | Some u => view u
  | None => respond (Redirect "login") [] d
  end.

(** [@user_passes_test(test)] *)
Definition user_passes_test (test : User → bool) (u : User) (d : Database)
    (view : Outcome) : Outcome :=
  if test u then view else respond (Redirect "login") [] d.

(** [status__in=[...]] *)
Definition in_list (s : string) (l : list string) : bool :=
  existsb (String.eqb s) l.

(** *** Views *)

(** The two filters of [user_tickets] on one row: [created_by=request.user]
    and the [Q] disjunction; a null [completed_at] fails [completed_at__gt]. *)
Definition own_visible (owner : nat) (two_minutes_ago : datetime)
    (kv : nat * Ticket) : bool :=
  Nat.eqb (created_by kv.2) owner
  && (in_list (status kv.2) ["pending"; "in_progress"]
      || (String.eqb (status kv.2) "completed"
          && match completed_at kv.2 with
             | Some c => (two_minutes_ago <? c)%Z
             | None => false
             end)).

Definition user_tickets (req : Request) (now : datetime) (d : Database)
    : Outcome :=
  login_required req d (λ u,
    let two_minutes_ago := (now - timedelta 0 2)%Z in
    let qs := filter (λ kv, own_visible (user_id u) two_minutes_ago kv = true)
                     (tickets d) in
    respond (Render "tickets/user_tickets.html" (order_by_created_at_desc qs))
            [] d).

(** The form fields [title], [description] are [request.POST.get]
    values; [department_id] is the primary key posted in [department],
    [None] when the field is absent or empty. *)
Definition submit_ticket (req : Request) (title description : option string)
    (department_id : option nat) (now : datetime) (d : Database) : Outcome :=
  login_required req d (λ u,
    match method req with
    | POST =>
        let department :=
          match department_id with
          | Some k => match departments d !! k with
                      | Some _ => Some k
                      | None => None
                      end
          | None => None
          end in
        let handler_group :=
          first (filter (λ kg, group_name kg.2 = "Handler") (groups d)) in
        let handler_user :=
          match handler_group with
          | Some (_, g) => user_set_first g
          | None => None
          end in
        match title, description with
        | Some ti, Some de =>
            let '(k, ticket) :=
              create_ticket ti de (user_id u) handler_user department now d in
            respond (Redirect "user_tickets")
                    [(Success, "Ticket submitted successfully.")]
                    (with_tickets (<[k := ticket]> (tickets d)) d)
        | _, _ => respond IntegrityError [] d
        end
    | GET => respond (Render "tickets/submit_ticket.html" []) [] d
    end).

(** [priority] is the [request.POST.get] value; [ticket_id] and
    [department_id] are the primary keys posted in [ticket_id] and
    [department] ([None] when the field is absent or empty). *)
Definition admin_dashboard (req : Request) (ticket_id : nat)
    (priority : option string) (department_id : option nat)
    (d : Database) : Outcome :=
  login_required req d (λ u,
    user_passes_test is_admin u d
      match method req with
      | POST =>
          match tickets d !! ticket_id with
          | None => respond Http404 [] d
          | Some ticket =>
              let ticket :=
                if truthy priority
                then set_priority (default "" priority) ticket
                else ticket in
              let ticket :=
                match department_id with
                | Some k =>
                    match departments d !! k with
                    | Some _ => set_department (Some k) ticket
                    | None => set_department None ticket
                    end
                | None => ticket
                end in
              respond (Redirect "admin_dashboard")
                      [(Success, "Ticket updated by admin (supervisor).")]
                      (with_tickets (<[ticket_id := ticket]> (tickets d)) d)
          end
      | GET =>
          respond (Render "tickets/admin_dashboard.html"
                          (order_by_created_at_desc (tickets d))) [] d
      end).

(** The assignments both dashboards make to [priority], [status] and
    [completed_at] from the posted values. *)
Definition apply_update (priority status : option string) (now : datetime)
    (ticket : Ticket) : Ticket :=
  let ticket :=
    if truthy priority then set_priority (default "" priority) ticket
    else ticket in
  let ticket :=
    if truthy status then set_status (default "" status) ticket
    else ticket in
  if equals status "completed" then set_completed_at (Some now) ticket
  else set_completed_at None ticket.

Definition agent_dashboard (req : Request) (ticket_id : nat)
    (priority status : option string) (now : datetime) (d : Database)
    : Outcome :=
  login_required req d (λ u,
    user_passes_test (is_agent d) u d
      match method req with
      | POST =>
          match tickets d !! ticket_id with
          | None => respond Http404 [] d
          | Some ticket =>
              if is_None (agent ticket) || fk_is (agent ticket) u then
                let ticket := set_agent (Some (user_id u)) ticket in
                let ticket := apply_update priority status now ticket in
                respond (Redirect "agent_dashboard")
                        [(Success, "Task updated successfully!")]
                        (with_tickets (<[ticket_id := ticket]> (tickets d)) d)
              else
                respond (Redirect "agent_dashboard")
                        [(Error, "You are not allowed to update this ticket.")]
                        d
          end
      | GET =>
          respond (Render "tickets/agent_dashboard.html"
                     (order_by_created_at_desc
                        (filter (λ kv, fk_is (agent kv.2) u = true)
                                (tickets d))))
                  [] d
      end).

Definition delete_ticket (req : Request) (ticket_id : nat) (d : Database)
    : Outcome :=
  login_required req d (λ u,
    user_passes_test is_admin u d
      match tickets d !! ticket_id with
      | None => respond Http404 [] d
      | Some ticket =>
          if negb (String.eqb (status ticket) "completed") then
            respond (Redirect "admin_dashboard")
                    [(Error, "Only completed tickets can be deleted.")] d
          else
            respond (Redirect "admin_dashboard")
                    [(Success, "Ticket deleted successfully.")]
                    (delete_tickets {[ticket_id]} d)
      end).

Definition mark_all_completed (req : Request) (now : datetime)
    (d : Database) : Outcome :=
  login_required req d (λ u,
    user_passes_test is_admin u d
      (respond (Redirect "admin_dashboard")
         [(Success, "All tickets marked as completed.")]
         (with_tickets
            (update_where
               (λ t, in_list (status t) ["pending"; "in_progress"])
               (λ t, set_completed_at (Some now) (set_status "completed" t))
               (tickets d))
            d))).

(** [str(count)] inside the f-string. *)
Definition str (n : nat) : string := NilEmpty.string_of_uint (Nat.to_uint n).

(** [ids] are the primary keys posted in [selected_tickets]. *)
Definition delete_selected (req : Request) (ids : list nat) (d : Database)
    : Outcome :=
  login_required req d (λ u,
    user_passes_test is_admin u d
      match method req with
      | POST =>
          let selected :=
            filter (λ kv : nat * Ticket,
                      kv.1 ∈ ids ∧ status kv.2 = "completed") (tickets d) in
          let count := size selected in
          respond (Redirect "admin_dashboard")
                  [(Success, "Deleted " ++ str count ++ " ticket(s) successfully.")]
                  (delete_tickets (dom selected) d)
      | GET =>
          respond (Redirect "admin_dashboard")
                  [(Error, "No tickets selected.")] d
      end).

Definition handler_dashboard (req : Request) (ticket_id : nat)
    (priority status : option string) (now : datetime) (d : Database)
    : Outcome :=
  login_required req d (λ u,
    if negb (handler_logged_in (session req) || is_handler d u) then
      respond (Redirect "login") [] d
    else
      match method req with
      | POST =>
          match tickets d !! ticket_id with
          | None => respond Http404 [] d
          | Some ticket =>
              if is_None (handler ticket) || fk_is (handler ticket) u
                 || equals (handler_user (session req)) "handler" then
                let ticket := apply_update priority status now ticket in
                let ticket :=
                  if is_None (handler ticket) && is_handler d u
                  then set_handler (Some (user_id u)) ticket
                  else ticket in
                respond (Redirect "handler_dashboard")
                        [(Success, "Ticket updated successfully.")]
                        (with_tickets (<[ticket_id := ticket]> (tickets d)) d)
              else
                respond (Redirect "handler_dashboard")
                        [(Error, "You are not allowed to update this ticket.")]
                        d
          end
      | GET =>
          respond (Render "tickets/handler_dashboard.html"
                     (order_by_created_at_desc
                        (filter (λ kv, is_None (handler kv.2)
                                       || fk_is (handler kv.2) u = true)
                                (tickets d))))
                  [] d
      end).

(** *** Comments and the landing page *)

Definition with_comments (cs : gmap nat Comment) (d : Database) : Database :=
  {| groups := groups d; departments := departments d;
     tickets := tickets d; comments := cs |}.

(** [str.isspace] on one character.  A character of a [string] stands
    for the code point of the same number; below 256 the whitespace code
    points are 9 to 13, 28 to 32, 133 and 160. *)
Definition isspace (c : ascii) : bool :=
  let n := nat_of_ascii c in
  ((9 <=? n) && (n <=? 13)) || ((28 <=? n) && (n <=? 32))
  || (n =? 133) || (n =? 160).

Fixpoint lstrip (s : string) : string :=
  match s with
  | EmptyString => EmptyString
  | String c rest => if isspace c then lstrip rest else s
  end.

Fixpoint rstrip (s : string) : string :=
  match s with
  | EmptyString => EmptyString
  | String c rest =>
      let rest' := rstrip rest in
      if isspace c && String.eqb rest' "" then EmptyString
      else String c rest'
  end.

(** [text.strip()] *)
Definition strip (s : string) : string := rstrip (lstrip s).

(** [.order_by('created_at')] on comments. *)
Definition comment_created_at_asc : relation (nat * Comment) :=
  λ a b, (comment_created_at a.2 ≤ comment_created_at b.2)%Z.

#[global] Instance comment_created_at_asc_dec (a b : nat * Comment) :
  Decision (comment_created_at_asc a b).
Proof. unfold comment_created_at_asc. apply _. Defined.

#[global] Instance comment_created_at_asc_total : Total comment_created_at_asc.
Proof. intros a b. unfold comment_created_at_asc. lia. Qed.

#[global] Instance comment_created_at_asc_trans :
  Transitive comment_created_at_asc.
Proof. intros a b c. unfold comment_created_at_asc. lia. Qed.

(** [ticket.comments.all().order_by('created_at')]: the [comments] entry
    of the context [ticket_detail] renders. *)
Definition ticket_comments (ticket_id : nat) (d : Database)
    : list (nat * Comment) :=
  merge_sort comment_created_at_asc
    (map_to_list (filter (λ kc : nat * Comment, comment_ticket kc.2 = ticket_id)
                         (comments d))).

(** [Comment.objects.create(ticket=..., user=..., text=...)]: the database
    picks an unused key and [created_at] is [auto_now_add]. *)
Definition create_comment (ticket_id user_id : nat) (text : string)
    (now : datetime) (d : Database) : nat * Comment :=
  (fresh (dom (comments d)),
   {| comment_ticket := ticket_id; comment_user := user_id;
      comment_text := text; comment_created_at := now |}).

(** [comment] is the [request.POST.get('comment')] value.  The rendered
    context is the ticket, carried by [Render], and [ticket_comments]. *)
Definition ticket_detail (req : Request) (ticket_id : nat)
    (comment : option string) (now : datetime) (d : Database) : Outcome :=
  login_required req d (λ u,
    match tickets d !! ticket_id with
    | None => respond Http404 [] d
    | Some ticket =>
        match method req with
        | POST =>
            let text := default "" comment in
            if truthy comment && negb (String.eqb (strip text) "") then
              let '(k, c) :=
                create_comment ticket_id (user_id u) (strip text) now d in
              respond (Redirect "ticket_detail")
                      [(Success, "Comment added.")]
                      (with_comments (<[k := c]> (comments d)) d)
            else respond (Redirect "ticket_detail") [] d
        | GET =>
            respond (Render "tickets/ticket_detail.html"
                            [(ticket_id, ticket)]) [] d
        end
    end).

(** The [print] of the user's groups goes to the server log only. *)
Definition after_login (req : Request) (d : Database) : Outcome :=
  login_required req d (λ u,
    if is_superuser u then respond (Redirect "admin_dashboard") [] d
    else if is_agent d u then respond (Redirect "agent_dashboard") [] d
    else if is_handler d u then respond (Redirect "handler_dashboard") [] d
    else respond (Redirect "submit_ticket") [] d).

End Views.

Import Views.

Arguments delete_tickets : simpl never.
Arguments update_where : simpl never.
Arguments in_list : simpl never.
(** ** tickets/urls.py

    The ten routes of the ticket pages, each with the form fields its view
    reads, and the view each one is bound to: [submit_ticket],
    [user_tickets], [admin_dashboard], [agent_dashboard], [ticket_detail],
    [delete_ticket], [mark_all_completed], [delete_selected],
    [handler_dashboard] and [after_login].

    The other seven routes of the file are not in this table: [login/],
    [signup/] and [logout/] rest on Django's authentication forms and
    sessions, the four [api/] routes on REST framework generics.  Their
    views do write groups and ticket rows, so a statement over [Call] is a
    statement about the ten ticket page views and about no other route. *)

Module Urls.

Inductive Call :=
| submit_ticket_url (title description : option string)
                    (department : option nat)
| user_tickets_url
| admin_dashboard_url (ticket_id : nat) (priority : option string)
                      (department : option nat)
| agent_dashboard_url (ticket_id : nat) (priority status : option string)
| ticket_detail_url (ticket_id : nat) (comment : option string)
| delete_ticket_url (ticket_id : nat)
| mark_all_completed_url
| delete_selected_url (selected_tickets : list nat)
| handler_dashboard_url (ticket_id : nat) (priority status : option string)
| after_login_url.

Definition urlpatterns (c : Call) (req : Request) (now : datetime)
    (d : Database) : Outcome :=
  match c with
  | submit_ticket_url ti de dep => submit_ticket req ti de dep now d
  | user_tickets_url => user_tickets req now d
  | admin_dashboard_url k p dep => admin_dashboard req k p dep d
  | agent_dashboard_url k p s => agent_dashboard req k p s now d
  | ticket_detail_url k text => ticket_detail req k text now d
  | delete_ticket_url k => delete_ticket req k d
  | mark_all_completed_url => mark_all_completed req now d
  | delete_selected_url ids => delete_selected req ids d
  | handler_dashboard_url k p s => handler_dashboard req k p s now d
  | after_login_url => after_login req d
  end.

(** One request to one of the ten ticket page views. *)
Record Hit := {
  hit_call : Call;
  hit_request : Request;
  hit_time : datetime
}.

(** The database after a sequence of requests to the ten ticket page
    views, served one by one. *)
Fixpoint serve (hits : list Hit) (d : Database) : Database :=
  match hits with
  | [] => d
  | h :: rest =>
      serve rest (db (urlpatterns (hit_call h) (hit_request h) (hit_time h) d))
  end.

End Urls.

Import Urls.


(** ** Vocabulary of the properties *)

(** The lifecycle invariant of a ticket row: a completion stamp is there
    exactly when the status is "completed". *)
Definition completed_at_consistent (t : Ticket) : Prop :=
  completed_at t ≠ None ↔ status t = "completed".

Definition all_consistent (d : Database) : Prop :=
  ∀ k t, tickets d !! k = Some t → completed_at_consistent t.

(** The request passed [handler_dashboard]'s entry test. *)
Definition handler_gate (req : Request) (d : Database) (u : User) : Prop :=
  handler_logged_in (session req) = true ∨ is_handler d u = true.

(** The actor-binding test of [handler_dashboard]. *)
Definition handler_binding (req : Request) (u : User) (t : Ticket) : Prop :=
  handler t = None ∨ handler t = Some (user_id u)
  ∨ handler_user (session req) = Some "handler".

(** The actor-binding test of [agent_dashboard]. *)
Definition agent_binding (u : User) (t : Ticket) : Prop :=
  agent t = None ∨ agent t = Some (user_id u).

Definition updated (msg : string) (out : Outcome) : Prop :=
  messages out = [(Success, msg)].

Definition refused (out : Outcome) : Prop :=
  messages out = [(Error, "You are not allowed to update this ticket.")].

(** [t'] is [t] with only [status] and [completed_at] rewritten. *)
Definition same_but_lifecycle (t t' : Ticket) : Prop :=
  title t' = title t ∧ description t' = description t
  ∧ created_by t' = created_by t ∧ agent t' = agent t
  ∧ handler t' = handler t ∧ department t' = department t
  ∧ created_at t' = created_at t ∧ sla_due t' = sla_due t
  ∧ priority t' = priority t.

(** The request comes from a logged-in superuser. *)
Definition from_admin (req : Request) : Prop :=
  ∃ u, user req = Some u ∧ is_superuser u = true.

(** Ticket [k] exists in [d] and is completed. *)
Definition completed_in (d : Database) (k : nat) : Prop :=
  ∃ t, tickets d !! k = Some t ∧ status t = "completed".

(** The number of tickets a bulk completion has to write. *)
Definition open_count (d : Database) : nat :=
  size (filter (λ kv : nat * Ticket,
                  status kv.2 = "pending" ∨ status kv.2 = "in_progress")
               (tickets d)).

(** Group [i] is the Handler group: the group of that name (the first one
    by primary key, should the table hold several). *)
Definition handler_group (d : Database) (i : nat) (g : Group) : Prop :=
  groups d !! i = Some g ∧ group_name g = "Handler"
  ∧ ∀ j g', groups d !! j = Some g' → group_name g' = "Handler" → i ≤ j.

(** [m] is the first member of [g]: the one with the least primary key. *)
Definition first_member (g : Group) (m : nat) : Prop :=
  m ∈ user_set g ∧ ∀ m', m' ∈ user_set g → m ≤ m'.

(** What makes a ticket show up in its owner's list at time [now]. *)
Definition visible_to_owner (owner : nat) (now : datetime) (t : Ticket) : Prop :=
  created_by t = owner
  ∧ (status t = "pending" ∨ status t = "in_progress"
     ∨ (status t = "completed"
        ∧ ∃ c, completed_at t = Some c ∧ (now - c < 2 * 60 * 1000000)%Z)).

(** Newest first. *)
Definition newest_first (rows : list (nat * Ticket)) : Prop :=
  ∀ i j a b, i < j → rows !! i = Some a → rows !! j = Some b →
             (created_at b.2 ≤ created_at a.2)%Z.

(** What a view may have rewritten in a ticket row: content, owner and
    creation time are as before, and a handler or agent already set is
    still the same. *)
Definition row_kept (t t' : Ticket) : Prop :=
  title t' = title t ∧ description t' = description t
  ∧ created_by t' = created_by t ∧ created_at t' = created_at t
  ∧ sla_due t' = sla_due t
  ∧ (∀ a, handler t = Some a → handler t' = Some a)
  ∧ (∀ a, agent t = Some a → agent t' = Some a).

(** The ways one request can change the database. *)
Inductive effect (req : Request) (d : Database) : Database → Prop :=
| effect_none : effect req d d
| effect_rewrite ts :
    (∀ k, match tickets d !! k with
          | Some t => ∃ t', ts !! k = Some t' ∧ row_kept t t'
          | None => ts !! k = None
          end) →
    effect req d (with_tickets ts d)
| effect_create k t :
    tickets d !! k = None → status t = "pending" → completed_at t = None →
    effect req d (with_tickets (<[k := t]> (tickets d)) d)
| effect_delete ids :
    from_admin req → (∀ k, k ∈ ids → completed_in d k) →
    effect req d (delete_tickets ids d)
| effect_comment c cm :
    comments d !! c = None → is_Some (tickets d !! comment_ticket cm) →
    effect req d (with_comments (<[c := cm]> (comments d)) d).

(** Every comment belongs to a ticket of the table. *)
Definition comments_attached (d : Database) : Prop :=
  ∀ c cm, comments d !! c = Some cm → is_Some (tickets d !! comment_ticket cm).

(** The request posts a status, unless it is no dashboard update. *)
Definition carries_status (h : Hit) : Prop :=
  match hit_call h with
  | agent_dashboard_url _ _ s | handler_dashboard_url _ _ s => truthy s = true
  | _ => True
  end.

(** The views that look at [request.method] before they write. *)
Definition checks_method (c : Call) : Prop :=
  match c with
  | delete_ticket_url _ | mark_all_completed_url => False
  | _ => True
  end.

Definition as_get (req : Request) : Request :=
  {| method := GET; user := user req; session := session req |}.

(** The page behind a redirect of [after_login]. *)
Definition landing (to : string) : option Call :=
  if String.eqb to "admin_dashboard" then Some (admin_dashboard_url 0 None None)
  else if String.eqb to "agent_dashboard"
       then Some (agent_dashboard_url 0 None None)
  else if String.eqb to "handler_dashboard"
       then Some (handler_dashboard_url 0 None None)
  else if String.eqb to "submit_ticket"
       then Some (submit_ticket_url None None None)
  else None.

(** [rows] is the listing of the tickets of [d] that satisfy [P]: each of
    them once, newest first. *)
Definition lists_exactly (rows : list (nat * Ticket)) (P : Ticket → Prop)
    (d : Database) : Prop :=
  (∀ k t, (k, t) ∈ rows ↔ tickets d !! k = Some t ∧ P t)
  ∧ NoDup rows.*1
  ∧ newest_first rows.

(** Whitespace only. *)
Fixpoint all_space (s : string) : bool :=
  match s with
  | EmptyString => true
  | String c rest => isspace c && all_space rest
  end.

Definition starts_with_space (s : string) : bool :=
  match s with
  | EmptyString => false
  | String c _ => isspace c
  end.

Fixpoint ends_with_space (s : string) : bool :=
  match s with
  | EmptyString => false
  | String c EmptyString => isspace c
  | String _ rest => ends_with_space rest
  end.

(** The hours [timedelta(hours=h)] accepts; outside them it raises
    [OverflowError]. *)
Definition timedelta_hours (h : Z) : Prop :=
  (-23999999976 ≤ h ≤ 23999999999)%Z.

(** Sample data for the closed statements. *)
Module Sample.

Definition ticket (st : string) (done : option datetime) (made : datetime)
    (owner : nat) (h : option nat) : Ticket :=
  {| title := "Printer jam"; description := "Tray 2 is stuck";
     created_by := owner; agent := None; handler := h; department := None;
     status := st; completed_at := done; created_at := made;
     sla_due := None; priority := "medium" |}.

Definition root : User :=
  {| user_id := 1; username := "root"; is_superuser := true |}.
Definition alice : User :=
  {| user_id := 5; username := "alice"; is_superuser := false |}.
Definition bob : User :=
  {| user_id := 7; username := "bob"; is_superuser := false |}.
Definition carol : User :=
  {| user_id := 3; username := "carol"; is_superuser := false |}.

Definition no_session : Session :=
  {| handler_logged_in := false; handler_user := None |}.
Definition flag_session : Session :=
  {| handler_logged_in := true; handler_user := None |}.
Definition legacy_session : Session :=
  {| handler_logged_in := true; handler_user := Some "handler" |}.

Definition request (m : Method) (u : User) (s : Session) : Request :=
  {| method := m; user := Some u; session := s |}.

(** Alice and Bob are handlers, Bob is also an agent; Carol is a plain
    user.  Ticket 2, handled by Alice, was completed thirty seconds after
    it was created. *)
Definition helpdesk : Database :=
  {| groups := {[ 1 := {| group_name := "Handler"; user_set := {[ 7; 5 ]} |};
                  2 := {| group_name := "Agent"; user_set := {[ 7 ]} |} ]};
     departments := {[ 1 := {| dept_name := "IT" |} ]};
     tickets := {[ 1 := ticket "pending" None 10%Z 3 None;
                   2 := ticket "completed" (Some 30000020%Z) 20%Z 3 (Some 5);
                   4 := ticket "in_progress" None 30%Z 3 None ]};
     comments := {[ 1 := {| comment_ticket := 2; comment_user := 3;
                            comment_text := "thanks";
                            comment_created_at := 25%Z |};
                    2 := {| comment_ticket := 1; comment_user := 3;
                            comment_text := "any news?";
                            comment_created_at := 26%Z |} ]} |}.

End Sample.

(** ** Basic facts about the helpers *)

Lemma is_None_true {A} (o : option A) : is_None o = true ↔ o = None.
Proof. destruct o; simpl; split; congruence. Qed.

Lemma fk_is_true (fk : option nat) (u : User) :
  fk_is fk u = true ↔ fk = Some (user_id u).
Proof.
  destruct fk as [k|]; simpl; [|split; congruence].
  rewrite Nat.eqb_eq. split; congruence.
Qed.

Lemma equals_true (v : option string) (s : string) :
  equals v s = true ↔ v = Some s.
Proof.
  destruct v as [x|]; simpl; [|split; congruence].
  rewrite String.eqb_eq. split; congruence.
Qed.

Lemma handler_binding_test req u t :
  is_None (handler t) || fk_is (handler t) u
  || equals (handler_user (session req)) "handler" = true
  ↔ handler_binding req u t.
Proof.
  unfold handler_binding.
  rewrite !orb_true_iff, is_None_true, fk_is_true, equals_true. tauto.
Qed.

Lemma agent_binding_test u t :
  is_None (agent t) || fk_is (agent t) u = true ↔ agent_binding u t.
Proof.
  unfold agent_binding. by rewrite orb_true_iff, is_None_true, fk_is_true.
Qed.

Lemma handler_gate_test req d u :
  negb (handler_logged_in (session req) || is_handler d u) = false
  ↔ handler_gate req d u.
Proof.
  unfold handler_gate. by rewrite negb_false_iff, orb_true_iff.
Qed.

(** What [apply_update] writes, field by field. *)
Lemma apply_update_status p s now t :
  status (apply_update p s now t)
  = if truthy s then default "" s else status t.
Proof. unfold apply_update. by destruct (truthy p), (truthy s), (equals s _). Qed.

Lemma apply_update_priority p s now t :
  priority (apply_update p s now t)
  = if truthy p then default "" p else priority t.
Proof. unfold apply_update. by destruct (truthy p), (truthy s), (equals s _). Qed.

Lemma apply_update_completed_at p s now t :
  completed_at (apply_update p s now t)
  = if equals s "completed" then Some now else None.
Proof. unfold apply_update. by destruct (truthy p), (truthy s), (equals s _). Qed.

Lemma apply_update_handler p s now t :
  handler (apply_update p s now t) = handler t.
Proof. unfold apply_update. by destruct (truthy p), (truthy s), (equals s _). Qed.

Lemma apply_update_agent p s now t :
  agent (apply_update p s now t) = agent t.
Proof. unfold apply_update. by destruct (truthy p), (truthy s), (equals s _). Qed.

Lemma equals_not_truthy s lit : truthy s = false → lit ≠ "" → equals s lit = false.
Proof.
  destruct s as [x|]; simpl; [|done].
  rewrite negb_false_iff, String.eqb_eq. intros -> Hl.
  by apply String.eqb_neq.
Qed.

(** The accepted branch of [handler_dashboard], as one equation. *)
Lemma handler_dashboard_accepts req u tid p s now d t :
  user req = Some u → method req = POST → handler_gate req d u →
  tickets d !! tid = Some t → handler_binding req u t →
  handler_dashboard req tid p s now d
  = respond (Redirect "handler_dashboard")
      [(Success, "Ticket updated successfully.")]
      (with_tickets
         (<[tid := if is_None (handler t) && is_handler d u
                   then set_handler (Some (user_id u)) (apply_update p s now t)
                   else apply_update p s now t]> (tickets d)) d).
Proof.
  intros Hu Hm Hg Ht Hb. unfold handler_dashboard, login_required.
  apply handler_gate_test in Hg. apply handler_binding_test in Hb.
  rewrite Hu, Hg, Hm, Ht, Hb. by rewrite apply_update_handler.
Qed.

Lemma handler_dashboard_refuses req u tid p s now d t :
  user req = Some u → method req = POST → handler_gate req d u →
  tickets d !! tid = Some t → ¬ handler_binding req u t →
  handler_dashboard req tid p s now d
  = respond (Redirect "handler_dashboard")
      [(Error, "You are not allowed to update this ticket.")] d.
Proof.
  intros Hu Hm Hg Ht Hb. unfold handler_dashboard, login_required.
  apply handler_gate_test in Hg.
  rewrite <- handler_binding_test in Hb. apply not_true_is_false in Hb.
  by rewrite Hu, Hg, Hm, Ht, Hb.
Qed.

(** The two branches of [agent_dashboard]. *)
Lemma agent_dashboard_accepts req u tid p s now d t :
  user req = Some u → method req = POST → is_agent d u = true →
  tickets d !! tid = Some t → agent_binding u t →
  agent_dashboard req tid p s now d
  = respond (Redirect "agent_dashboard")
      [(Success, "Task updated successfully!")]
      (with_tickets
         (<[tid := apply_update p s now (set_agent (Some (user_id u)) t)]>
            (tickets d)) d).
Proof.
  intros Hu Hm Hg Ht Hb.
  unfold agent_dashboard, login_required, user_passes_test.
  apply agent_binding_test in Hb. by rewrite Hu, Hg, Hm, Ht, Hb.
Qed.

Lemma agent_dashboard_refuses req u tid p s now d t :
  user req = Some u → method req = POST → is_agent d u = true →
  tickets d !! tid = Some t → ¬ agent_binding u t →
  agent_dashboard req tid p s now d
  = respond (Redirect "agent_dashboard")
      [(Error, "You are not allowed to update this ticket.")] d.
Proof.
  intros Hu Hm Hg Ht Hb.
  unfold agent_dashboard, login_required, user_passes_test.
  rewrite <- agent_binding_test in Hb. apply not_true_is_false in Hb.
  by rewrite Hu, Hg, Hm, Ht, Hb.
Qed.

(** ** SLA policy *)

(** C2. [sla_status] is "open" for every ticket whose status is not
    "completed", whatever its timestamps; for a completed ticket it is
    "on_time" when [completed_at - created_at] is at most four hours and
    "delayed" otherwise (a missing [completed_at] included). *)
Theorem sla_status_spec (t : Ticket) :
  (status t ≠ "completed" → sla_status t = "open") ∧
  (∀ c, status t = "completed" → completed_at t = Some c →
        (c - created_at t ≤ 4 * 3600 * 1000000)%Z → sla_status t = "on_time") ∧
  (status t = "completed" →
   (∀ c, completed_at t = Some c → (c - created_at t > 4 * 3600 * 1000000)%Z) →
   sla_status t = "delayed").
Proof.
  unfold sla_status, completed_within_hours, timedelta.
  split; [|split].
  - intros Hs. apply String.eqb_neq in Hs. by rewrite Hs.
  - intros c Hs Hc Hle. rewrite Hs, Hc. simpl.
    match goal with
    | |- context [(?a <=? ?b)%Z] => destruct (Z.leb_spec a b); [done | lia]
    end.
  - intros Hs Hc. rewrite Hs. simpl.
    destruct (completed_at t) as [c|]; [|done].
    specialize (Hc c eq_refl).
    match goal with
    | |- context [(?a <=? ?b)%Z] => destruct (Z.leb_spec a b); [lia | done]
    end.
Qed.

Lemma sla_status_spec_witness :
  sla_status (Sample.ticket "in_progress" (Some 5%Z) 90%Z 3 None) = "open" ∧
  sla_status (Sample.ticket "completed" (Some 14400000020%Z) 20%Z 3 None)
  = "on_time" ∧
  sla_status (Sample.ticket "completed" (Some 14400000021%Z) 20%Z 3 None)
  = "delayed".
Proof.
  split; [|split].
  - apply (proj1 (sla_status_spec _)). simpl. discriminate.
  - apply (proj1 (proj2 (sla_status_spec _)) 14400000020%Z);
      [reflexivity | reflexivity | simpl; lia].
  - apply (proj2 (proj2 (sla_status_spec _))); [reflexivity |].
    simpl. intros c [= <-]. lia.
Defined.

(** ** Status and priority updates *)

(** C10. An update through either dashboard that passes the actor-binding
    test and carries no status value (the field absent or empty) stores
    the ticket with [completed_at] cleared and its status as it was; so a
    priority-only update of a completed ticket drops its completion
    stamp. *)
Theorem update_without_status_clears_completed_at
    req u tid (p s : option string) now d t :
  user req = Some u → method req = POST → tickets d !! tid = Some t →
  s = None ∨ s = Some "" →
  (handler_gate req d u → handler_binding req u t →
   ∃ t', tickets (db (handler_dashboard req tid p s now d)) !! tid = Some t'
         ∧ completed_at t' = None ∧ status t' = status t) ∧
  (is_agent d u = true → agent_binding u t →
   ∃ t', tickets (db (agent_dashboard req tid p s now d)) !! tid = Some t'
         ∧ completed_at t' = None ∧ status t' = status t).
Proof.
  intros Hu Hm Ht Hs.
  assert (truthy s = false) as Hts by (by destruct Hs as [-> | ->]).
  assert (equals s "completed" = false) as Hes by (by destruct Hs as [-> | ->]).
  split.
  - intros Hg Hb.
    rewrite (handler_dashboard_accepts req u tid p s now d t) by done.
    simpl. rewrite lookup_insert_eq. eexists; split; [done|].
    destruct (is_None (handler t) && is_handler d u); simpl;
      by rewrite apply_update_completed_at, apply_update_status, Hes, Hts.
  - intros Hg Hb.
    rewrite (agent_dashboard_accepts req u tid p s now d t) by done.
    simpl. rewrite lookup_insert_eq. eexists; split; [done|].
    by rewrite apply_update_completed_at, apply_update_status, Hes, Hts.
Qed.

Lemma update_without_status_clears_completed_at_witness :
  (∃ t', tickets (db (handler_dashboard
                        (Sample.request POST Sample.alice Sample.no_session)
                        2 (Some "high") None 99%Z Sample.helpdesk)) !! 2
         = Some t'
         ∧ completed_at t' = None ∧ status t' = "completed") ∧
  (∃ t', tickets (db (agent_dashboard
                        (Sample.request POST Sample.bob Sample.no_session)
                        2 (Some "high") (Some "") 99%Z Sample.helpdesk)) !! 2
         = Some t'
         ∧ completed_at t' = None ∧ status t' = "completed").
Proof.
  split.
  - apply (proj1 (update_without_status_clears_completed_at
                    (Sample.request POST Sample.alice Sample.no_session)
                    Sample.alice 2 (Some "high") None 99%Z Sample.helpdesk
                    (Sample.ticket "completed" (Some 30000020%Z) 20%Z 3 (Some 5))
                    eq_refl eq_refl eq_refl (or_introl eq_refl))).
    + right. vm_compute. reflexivity.
    + right. left. reflexivity.
  - apply (proj2 (update_without_status_clears_completed_at
                    (Sample.request POST Sample.bob Sample.no_session)
                    Sample.bob 2 (Some "high") (Some "") 99%Z Sample.helpdesk
                    (Sample.ticket "completed" (Some 30000020%Z) 20%Z 3 (Some 5))
                    eq_refl eq_refl eq_refl (or_intror eq_refl))).
    + vm_compute. reflexivity.
    + left. reflexivity.
Defined.

(** C1, at the input where the code leaves the invariant: every ticket of
    the sample database has a completion stamp exactly when it is
    completed; after Alice, the handler of completed ticket 2, posts a new
    priority without a status, ticket 2 is still "completed" and has no
    stamp. *)
Theorem priority_only_update_breaks_completed_at_invariant :
  all_consistent Sample.helpdesk ∧
  ∃ t', tickets (db (handler_dashboard
                       (Sample.request POST Sample.alice Sample.no_session)
                       2 (Some "high") None 99%Z Sample.helpdesk)) !! 2
        = Some t'
        ∧ status t' = "completed" ∧ completed_at t' = None
        ∧ ¬ completed_at_consistent t'.
Proof.
  split.
  - intros k t Hk. unfold Sample.helpdesk in Hk. simpl in Hk.
    repeat (apply lookup_insert_Some in Hk as [[_ <-] | [_ Hk]];
            [unfold completed_at_consistent; simpl; split; congruence |]).
    apply lookup_singleton_Some in Hk as [_ <-].
    unfold completed_at_consistent; simpl; split; congruence.
  - eexists. split; [vm_compute; reflexivity |].
    split; [done | split; [done |]].
    unfold completed_at_consistent. simpl. intros [_ H]. by apply H.
Qed.

(** C9, at an input where the code misses the check.  The claim: an
    update whose status or priority is outside the allowed sets is
    rejected and leaves the ticket unchanged.  The model declares the sets
    ([choices=]) and the dashboards hand them to their templates, but
    neither view checks the posted values against them: Alice, a handler,
    posts the status "done" and the priority "critical" for the unassigned
    ticket 1; neither is among the choices, yet the update is reported as
    a success and both values are stored. *)
Lemma invalid_choice_is_stored :
  let out := handler_dashboard
               (Sample.request POST Sample.alice Sample.no_session)
               1 (Some "critical") (Some "done") 99%Z Sample.helpdesk in
  ("done" ∉ STATUS_CHOICES) ∧ ("critical" ∉ PRIORITY_CHOICES) ∧
  updated "Ticket updated successfully." out ∧
  db out ≠ Sample.helpdesk ∧
  ∃ t', tickets (db out) !! 1 = Some t'
        ∧ status t' = "done" ∧ priority t' = "critical".
Proof.
  simpl. split; [|split; [|split; [|split]]].
  - unfold STATUS_CHOICES. rewrite !elem_of_cons, elem_of_nil.
    intros [? | [? | [? | []]]]; discriminate.
  - unfold PRIORITY_CHOICES. rewrite !elem_of_cons, elem_of_nil.
    intros [? | [? | [? | [? | []]]]]; discriminate.
  - reflexivity.
  - intros H. apply (f_equal (λ x, status <$> tickets x !! 1)) in H.
    vm_compute in H. discriminate.
  - eexists. split; [vm_compute; reflexivity |]. by split.
Qed.

(** The same holds at every input: once the actor-binding test passes,
    either dashboard stores a non-empty posted value as it is, whether
    [STATUS_CHOICES] and [PRIORITY_CHOICES] hold it or not, and reports a
    success. *)
Theorem update_stores_posted_values
    req u tid (pv sv : option string) now d t :
  user req = Some u → method req = POST → tickets d !! tid = Some t →
  (handler_gate req d u → handler_binding req u t →
   let out := handler_dashboard req tid pv sv now d in
   updated "Ticket updated successfully." out ∧
   ∃ t', tickets (db out) !! tid = Some t'
         ∧ (∀ s, sv = Some s → s ≠ "" → status t' = s)
         ∧ (∀ p, pv = Some p → p ≠ "" → priority t' = p)) ∧
  (is_agent d u = true → agent_binding u t →
   let out := agent_dashboard req tid pv sv now d in
   updated "Task updated successfully!" out ∧
   ∃ t', tickets (db out) !! tid = Some t'
         ∧ (∀ s, sv = Some s → s ≠ "" → status t' = s)
         ∧ (∀ p, pv = Some p → p ≠ "" → priority t' = p)).
Proof.
  intros Hu Hm Ht.
  assert (∀ (v : option string) x, v = Some x → x ≠ "" →
            truthy v = true ∧ default "" v = x) as Hv.
  { intros v x -> Hx. simpl. split; [|done].
    apply negb_true_iff. by apply String.eqb_neq. }
  split.
  - intros Hg Hb.
    rewrite (handler_dashboard_accepts req u tid pv sv now d t) by done.
    simpl. split; [done|]. rewrite lookup_insert_eq.
    eexists; split; [done|].
    split.
    + intros s Hs Hne. destruct (Hv _ _ Hs Hne) as [H1 H2].
      destruct (is_None (handler t) && is_handler d u); simpl;
        by rewrite apply_update_status, H1, H2.
    + intros p Hp Hne. destruct (Hv _ _ Hp Hne) as [H1 H2].
      destruct (is_None (handler t) && is_handler d u); simpl;
        by rewrite apply_update_priority, H1, H2.
  - intros Hg Hb.
    rewrite (agent_dashboard_accepts req u tid pv sv now d t) by done.
    simpl. split; [done|]. rewrite lookup_insert_eq.
    eexists; split; [done|].
    split.
    + intros s Hs Hne. destruct (Hv _ _ Hs Hne) as [H1 H2].
      by rewrite apply_update_status, H1, H2.
    + intros p Hp Hne. destruct (Hv _ _ Hp Hne) as [H1 H2].
      by rewrite apply_update_priority, H1, H2.
Qed.

Lemma update_stores_posted_values_witness :
  (let out := handler_dashboard
                (Sample.request POST Sample.alice Sample.no_session)
                1 (Some "critical") (Some "done") 99%Z Sample.helpdesk in
   updated "Ticket updated successfully." out ∧
   ∃ t', tickets (db out) !! 1 = Some t'
         ∧ (∀ s, Some "done" = Some s → s ≠ "" → status t' = s)
         ∧ (∀ p, Some "critical" = Some p → p ≠ "" → priority t' = p)) ∧
  (let out := agent_dashboard
                (Sample.request POST Sample.bob Sample.no_session)
                1 (Some "critical") (Some "done") 99%Z Sample.helpdesk in
   updated "Task updated successfully!" out ∧
   ∃ t', tickets (db out) !! 1 = Some t'
         ∧ (∀ s, Some "done" = Some s → s ≠ "" → status t' = s)
         ∧ (∀ p, Some "critical" = Some p → p ≠ "" → priority t' = p)).
Proof.
  split.
  - apply (proj1 (update_stores_posted_values
                    (Sample.request POST Sample.alice Sample.no_session)
                    Sample.alice 1 (Some "critical") (Some "done") 99%Z
                    Sample.helpdesk
                    (Sample.ticket "pending" None 10%Z 3 None)
                    eq_refl eq_refl eq_refl)).
    + right. vm_compute. reflexivity.
    + left. reflexivity.
  - apply (proj2 (update_stores_posted_values
                    (Sample.request POST Sample.bob Sample.no_session)
                    Sample.bob 1 (Some "critical") (Some "done") 99%Z
                    Sample.helpdesk
                    (Sample.ticket "pending" None 10%Z 3 None)
                    eq_refl eq_refl eq_refl)).
    + vm_compute. reflexivity.
    + left. reflexivity.
Defined.

(** ** Claim-on-write in the handler flow *)

(** C3 fails as stated.  Carol is logged in and is not in the Handler
    group.  With the session flag of the special handler login her update
    of the unassigned ticket 1 succeeds and the ticket stays without a
    handler.  With the special handler identity in her session her update
    of ticket 2, which is bound to Alice, succeeds as well. *)
Lemma session_handler_is_not_bound :
  let flagged := Sample.request POST Sample.carol Sample.flag_session in
  let legacy := Sample.request POST Sample.carol Sample.legacy_session in
  let out1 := handler_dashboard flagged 1 None (Some "in_progress") 99%Z
                Sample.helpdesk in
  let out2 := handler_dashboard legacy 2 None (Some "pending") 99%Z
                Sample.helpdesk in
  handler_gate flagged Sample.helpdesk Sample.carol ∧
  (∃ t, tickets Sample.helpdesk !! 1 = Some t ∧ handler t = None) ∧
  updated "Ticket updated successfully." out1 ∧
  (∃ t', tickets (db out1) !! 1 = Some t'
         ∧ status t' = "in_progress" ∧ handler t' = None
         ∧ handler t' ≠ Some (user_id Sample.carol)) ∧
  (∃ t, tickets Sample.helpdesk !! 2 = Some t
        ∧ handler t = Some (user_id Sample.alice)) ∧
  user_id Sample.carol ≠ user_id Sample.alice ∧
  updated "Ticket updated successfully." out2 ∧
  (∃ t', tickets (db out2) !! 2 = Some t'
         ∧ status t' = "pending" ∧ handler t' = Some (user_id Sample.alice)).
Proof.
  simpl. split; [by left |].
  split; [eexists; split; [vm_compute; reflexivity | done] |].
  split; [reflexivity |].
  split; [eexists; split; [vm_compute; reflexivity | done] |].
  split; [eexists; split; [vm_compute; reflexivity | done] |].
  split; [done |].
  split; [reflexivity |].
  eexists; split; [vm_compute; reflexivity | done].
Qed.

(** C3, amended.  For a POST that passed the dashboard's entry test, on an
    existing ticket: the update succeeds exactly when the ticket has no
    handler, or its handler is the actor, or the session carries the
    special handler identity; a refused update changes nothing.  An
    accepted update of a ticket without handler binds it to the actor when
    the actor is in the Handler group, and leaves it unbound otherwise.  A
    ticket bound to another user is refused to every actor whose session
    does not carry the special handler identity. *)
Theorem handler_update_claim_on_write
    req u tid (p s : option string) now d t :
  user req = Some u → method req = POST → handler_gate req d u →
  tickets d !! tid = Some t →
  let out := handler_dashboard req tid p s now d in
  (updated "Ticket updated successfully." out ↔ handler_binding req u t) ∧
  (¬ handler_binding req u t → refused out ∧ db out = d) ∧
  (handler t = None →
   ∃ t', tickets (db out) !! tid = Some t'
         ∧ handler t' = if is_handler d u then Some (user_id u) else None) ∧
  (∀ a, handler t = Some a → a ≠ user_id u →
        handler_user (session req) ≠ Some "handler" →
        refused out ∧ db out = d).
Proof.
  intros Hu Hm Hg Ht out.
  assert (¬ handler_binding req u t → refused out ∧ db out = d) as Href.
  { intros Hb. subst out.
    by rewrite (handler_dashboard_refuses req u tid p s now d t). }
  split; [|split; [done | split]].
  - split.
    + intros Hok. destruct (decide (handler_binding req u t)) as [|Hb]; [done|].
      apply Href in Hb as [Hb _]. unfold updated, refused in *. congruence.
    + intros Hb. subst out.
      by rewrite (handler_dashboard_accepts req u tid p s now d t).
  - intros Hn. subst out.
    rewrite (handler_dashboard_accepts req u tid p s now d t)
      by (done || by left).
    simpl. rewrite lookup_insert_eq. eexists; split; [done|].
    rewrite Hn. simpl.
    destruct (is_handler d u); simpl; [done|].
    by rewrite apply_update_handler.
  - intros a Ha Hne Hs. apply Href.
    unfold handler_binding. rewrite Ha. intros [? | [? | ?]]; congruence.
Qed.

Lemma handler_update_claim_on_write_witness :
  let req := Sample.request POST Sample.bob Sample.no_session in
  let t := Sample.ticket "pending" None 10%Z 3 None in
  let out := handler_dashboard req 1 None (Some "in_progress") 99%Z
               Sample.helpdesk in
  (updated "Ticket updated successfully." out
   ↔ handler_binding req Sample.bob t) ∧
  (¬ handler_binding req Sample.bob t → refused out ∧ db out = Sample.helpdesk) ∧
  (handler t = None →
   ∃ t', tickets (db out) !! 1 = Some t'
         ∧ handler t' = if is_handler Sample.helpdesk Sample.bob
                        then Some (user_id Sample.bob) else None) ∧
  (∀ a, handler t = Some a → a ≠ user_id Sample.bob →
        handler_user (session req) ≠ Some "handler" →
        refused out ∧ db out = Sample.helpdesk).
Proof.
  apply (handler_update_claim_on_write
           (Sample.request POST Sample.bob Sample.no_session) Sample.bob 1
           None (Some "in_progress") 99%Z Sample.helpdesk
           (Sample.ticket "pending" None 10%Z 3 None) eq_refl eq_refl).
  - right. vm_compute. reflexivity.
  - vm_compute. reflexivity.
Defined.

(** After a handler has claimed an unassigned ticket by updating it, the
    update of another handler is refused and changes nothing. *)
Corollary second_handler_is_refused
    reqA reqB a b tid pA sA pB sB nowA nowB d t :
  user reqA = Some a → method reqA = POST → is_handler d a = true →
  user reqB = Some b → method reqB = POST → is_handler d b = true →
  handler_user (session reqB) ≠ Some "handler" →
  user_id a ≠ user_id b →
  tickets d !! tid = Some t → handler t = None →
  let after_a := db (handler_dashboard reqA tid pA sA nowA d) in
  let out := handler_dashboard reqB tid pB sB nowB after_a in
  refused out ∧ db out = after_a.
Proof.
  intros HuA HmA HgA HuB HmB HgB Hs Hab Ht Hn after_a out.
  subst out after_a.
  rewrite (handler_dashboard_accepts reqA a tid pA sA nowA d t);
    [| done | done | by right | done | by left].
  rewrite Hn, HgA. simpl.
  erewrite handler_dashboard_refuses;
    [done | done | done | by right | apply lookup_insert_eq |].
  unfold handler_binding. simpl. intros [? | [? | ?]]; congruence.
Qed.

(** ** Deletion *)

Lemma delete_tickets_lookup ids d k :
  tickets (delete_tickets ids d) !! k
  = if decide (k ∈ ids) then None else tickets d !! k.
Proof.
  unfold delete_tickets. simpl. rewrite map_lookup_filter.
  destruct (tickets d !! k) as [t|]; simpl; [|by case_decide].
  case_decide; [by rewrite option_guard_False by tauto |].
  by rewrite option_guard_True.
Qed.

Lemma delete_tickets_comments ids d c cm :
  comments (delete_tickets ids d) !! c = Some cm
  ↔ comments d !! c = Some cm ∧ comment_ticket cm ∉ ids.
Proof. unfold delete_tickets. simpl. by rewrite map_lookup_filter_Some. Qed.

Lemma admin_view req d view :
  from_admin req →
  login_required req d (λ u, user_passes_test is_admin u d view) = view.
Proof.
  intros (u & Hu & Hs). unfold login_required, user_passes_test, is_admin.
  by rewrite Hu, Hs.
Qed.

(** C4. For an admin, [delete_ticket] on a ticket that is not completed
    reports the error "Only completed tickets can be deleted." and leaves
    the database, tickets and comments, as it was; on a completed ticket it
    reports success, the ticket is gone, every other ticket is as before,
    and the comments that remain are exactly those of other tickets. *)
Theorem delete_ticket_only_completed req k d t :
  from_admin req → tickets d !! k = Some t →
  let out := delete_ticket req k d in
  (status t ≠ "completed" →
   messages out = [(Error, "Only completed tickets can be deleted.")]
   ∧ db out = d) ∧
  (status t = "completed" →
   messages out = [(Success, "Ticket deleted successfully.")]
   ∧ tickets (db out) !! k = None
   ∧ (∀ j, j ≠ k → tickets (db out) !! j = tickets d !! j)
   ∧ (∀ c cm, comments (db out) !! c = Some cm
              ↔ comments d !! c = Some cm ∧ comment_ticket cm ≠ k)).
Proof.
  intros Ha Ht out. subst out. unfold delete_ticket.
  rewrite admin_view by done. rewrite Ht. split.
  - intros Hs. apply String.eqb_neq in Hs. by rewrite Hs.
  - intros Hs. rewrite Hs. cbn. split; [done|].
    split; [|split].
    + rewrite delete_tickets_lookup. by rewrite decide_True by set_solver.
    + intros j Hj. rewrite delete_tickets_lookup.
      by rewrite decide_False by set_solver.
    + intros c cm. by rewrite delete_tickets_comments, elem_of_singleton.
Qed.

Lemma delete_ticket_only_completed_witness :
  let out := delete_ticket
               (Sample.request POST Sample.root Sample.no_session)
               2 Sample.helpdesk in
  let t := Sample.ticket "completed" (Some 30000020%Z) 20%Z 3 (Some 5) in
  (status t ≠ "completed" →
   messages out = [(Error, "Only completed tickets can be deleted.")]
   ∧ db out = Sample.helpdesk) ∧
  (status t = "completed" →
   messages out = [(Success, "Ticket deleted successfully.")]
   ∧ tickets (db out) !! 2 = None
   ∧ (∀ j, j ≠ 2 → tickets (db out) !! j = tickets Sample.helpdesk !! j)
   ∧ (∀ c cm, comments (db out) !! c = Some cm
              ↔ comments Sample.helpdesk !! c = Some cm
                ∧ comment_ticket cm ≠ 2)).
Proof.
  apply (delete_ticket_only_completed
           (Sample.request POST Sample.root Sample.no_session)
           2 Sample.helpdesk
           (Sample.ticket "completed" (Some 30000020%Z) 20%Z 3 (Some 5))).
  - exists Sample.root. split; reflexivity.
  - vm_compute. reflexivity.
Defined.

Lemma selected_lookup (ids : list nat) (m : gmap nat Ticket) k :
  k ∈ dom (filter (λ kv : nat * Ticket,
                     kv.1 ∈ ids ∧ status kv.2 = "completed") m)
  ↔ k ∈ ids ∧ ∃ t, m !! k = Some t ∧ status t = "completed".
Proof.
  rewrite elem_of_dom. unfold is_Some. split.
  - intros (t & Ht). apply map_lookup_filter_Some in Ht as (Ht & Hk & Hs).
    eauto.
  - intros (Hk & t & Ht & Hs). exists t. by apply map_lookup_filter_Some.
Qed.

(** C6. For an admin's POST, [delete_selected ids] removes every ticket
    that is listed in [ids] and completed, and no other: a listed id that
    names no ticket, or a ticket that is not completed, is passed over and
    the table is the same there.  The one message queued is the success
    message with the number of tickets removed; no error is reported.
    The comments that remain are exactly those of tickets not removed. *)
Theorem delete_selected_only_completed req (ids : list nat) d :
  from_admin req → method req = POST →
  let out := delete_selected req ids d in
  (∀ k, k ∈ ids → completed_in d k → tickets (db out) !! k = None) ∧
  (∀ k, ¬ (k ∈ ids ∧ completed_in d k) →
        tickets (db out) !! k = tickets d !! k) ∧
  (∃ n, messages out
        = [(Success, "Deleted " ++ str n ++ " ticket(s) successfully.")]
        ∧ size (tickets (db out)) + n = size (tickets d)) ∧
  (∀ c cm, comments (db out) !! c = Some cm
           ↔ comments d !! c = Some cm
             ∧ ¬ (comment_ticket cm ∈ ids ∧ completed_in d (comment_ticket cm))).
Proof.
  intros Ha Hm out. subst out. unfold delete_selected.
  rewrite admin_view by done. rewrite Hm. cbn.
  split; [|split; [|split]].
  - intros k Hk Hc. rewrite delete_tickets_lookup.
    rewrite decide_True; [done|]. by apply selected_lookup.
  - intros k Hk. rewrite delete_tickets_lookup.
    rewrite decide_False; [done|]. by rewrite selected_lookup.
  - eexists. split; [done|]. unfold delete_tickets. cbn [tickets].
    set (P := λ kv : nat * Ticket, kv.1 ∈ ids ∧ status kv.2 = "completed").
    assert (filter (λ kv : nat * Ticket, kv.1 ∉ dom (filter P (tickets d)))
                   (tickets d)
            = filter (λ kv, ¬ P kv) (tickets d)) as ->.
    { apply map_filter_ext. intros i x Hi. simpl.
      unfold P at 1. rewrite selected_lookup. unfold P. simpl.
      split; intros Hn [Hin Hc]; apply Hn; (split; [done|]).
      - by exists x.
      - destruct Hc as (t & Ht & Hs). congruence. }
    rewrite <- (map_filter_union_complement P (tickets d)) at 3.
    rewrite map_size_disj_union by apply map_disjoint_filter_complement.
    lia.
  - intros c cm. rewrite delete_tickets_comments.
    unfold completed_in. by rewrite selected_lookup.
Qed.

Lemma delete_selected_only_completed_witness :
  let out := delete_selected
               (Sample.request POST Sample.root Sample.no_session)
               [2; 1; 9; 2] Sample.helpdesk in
  (∀ k, k ∈ [2; 1; 9; 2] → completed_in Sample.helpdesk k →
        tickets (db out) !! k = None) ∧
  (∀ k, ¬ (k ∈ [2; 1; 9; 2] ∧ completed_in Sample.helpdesk k) →
        tickets (db out) !! k = tickets Sample.helpdesk !! k) ∧
  (∃ n, messages out
        = [(Success, "Deleted " ++ str n ++ " ticket(s) successfully.")]
        ∧ size (tickets (db out)) + n = size (tickets Sample.helpdesk)) ∧
  (∀ c cm, comments (db out) !! c = Some cm
           ↔ comments Sample.helpdesk !! c = Some cm
             ∧ ¬ (comment_ticket cm ∈ [2; 1; 9; 2]
                  ∧ completed_in Sample.helpdesk (comment_ticket cm))).
Proof.
  apply (delete_selected_only_completed
           (Sample.request POST Sample.root Sample.no_session)
           [2; 1; 9; 2] Sample.helpdesk).
  - exists Sample.root. split; reflexivity.
  - reflexivity.
Defined.

(** The sample run of [delete_selected]: of the ids 2, 1, 9, 2 only
    ticket 2 is completed; it is removed with its comment and "1" is
    reported. *)
Example delete_selected_sample :
  let out := delete_selected
               (Sample.request POST Sample.root Sample.no_session)
               [2; 1; 9; 2] Sample.helpdesk in
  messages out = [(Success, "Deleted 1 ticket(s) successfully.")]
  ∧ dom (tickets (db out)) = {[1; 4]}
  ∧ dom (comments (db out)) = {[2]}.
Proof. vm_compute. done. Qed.

(** ** Bulk completion *)

Lemma in_list_open s :
  in_list s ["pending"; "in_progress"] = true
  ↔ s = "pending" ∨ s = "in_progress".
Proof.
  unfold in_list. simpl.
  rewrite !orb_true_iff, !String.eqb_eq. intuition congruence.
Qed.

Lemma update_where_lookup p f (ts : gmap nat Ticket) k :
  update_where p f ts !! k
  = (λ t, if p t then f t else t) <$> ts !! k.
Proof. unfold update_where. apply lookup_fmap. Qed.

(** C5 fails as stated: on the sample database the first bulk completion
    has two tickets to write and a second one has none, and the two calls
    answer with the same redirect and the same message: the view returns
    no count. *)
Lemma mark_all_completed_reports_no_count :
  let req := Sample.request POST Sample.root Sample.no_session in
  let once := mark_all_completed req 99%Z Sample.helpdesk in
  let twice := mark_all_completed req 99%Z (db once) in
  open_count Sample.helpdesk = 2 ∧ open_count (db once) = 0 ∧
  response once = response twice ∧ messages once = messages twice ∧
  messages once = [(Success, "All tickets marked as completed.")].
Proof. vm_compute. done. Qed.

(** C5, amended.  For an admin, [mark_all_completed] rewrites every ticket
    whose status is "pending" or "in_progress" to status "completed" with
    [completed_at] the current time and nothing else changed, leaves every
    other ticket, the completed ones among them, as it was, creates no
    ticket and touches no comment; it answers with a redirect and the
    fixed message "All tickets marked as completed.", without a count. *)
Theorem mark_all_completed_spec req now d :
  from_admin req →
  let out := mark_all_completed req now d in
  response out = Redirect "admin_dashboard" ∧
  messages out = [(Success, "All tickets marked as completed.")] ∧
  (∀ k t, tickets d !! k = Some t →
          status t = "pending" ∨ status t = "in_progress" →
          ∃ t', tickets (db out) !! k = Some t'
                ∧ status t' = "completed" ∧ completed_at t' = Some now
                ∧ same_but_lifecycle t t') ∧
  (∀ k t, tickets d !! k = Some t → status t = "completed" →
          tickets (db out) !! k = Some t) ∧
  (∀ k t, tickets d !! k = Some t →
          status t ≠ "pending" → status t ≠ "in_progress" →
          tickets (db out) !! k = Some t) ∧
  (∀ k, tickets d !! k = None → tickets (db out) !! k = None) ∧
  comments (db out) = comments d.
Proof.
  intros Ha out. subst out. unfold mark_all_completed.
  rewrite admin_view by done. cbn.
  assert (∀ k t, tickets d !! k = Some t →
                 status t ≠ "pending" → status t ≠ "in_progress" →
                 update_where
                   (λ t, in_list (status t) ["pending"; "in_progress"])
                   (λ t, set_completed_at (Some now) (set_status "completed" t))
                   (tickets d) !! k = Some t) as Hkeep.
  { intros k t Ht H1 H2. rewrite update_where_lookup, Ht. cbn -[in_list].
    destruct (in_list (status t) ["pending"; "in_progress"]) eqn:E; [|done].
    apply in_list_open in E. tauto. }
  split; [done | split; [done |]].
  split; [|split; [|split; [|split]]].
  - intros k t Ht Hs. apply in_list_open in Hs.
    rewrite update_where_lookup, Ht. cbn -[in_list]. rewrite Hs.
    eexists. split; [done|]. by repeat split.
  - intros k t Ht Hs. apply Hkeep; [done | |]; rewrite Hs; discriminate.
  - done.
  - intros k Hk. by rewrite update_where_lookup, Hk.
  - done.
Qed.

Lemma mark_all_completed_spec_witness :
  let out := mark_all_completed
               (Sample.request POST Sample.root Sample.no_session)
               99%Z Sample.helpdesk in
  response out = Redirect "admin_dashboard" ∧
  messages out = [(Success, "All tickets marked as completed.")] ∧
  (∀ k t, tickets Sample.helpdesk !! k = Some t →
          status t = "pending" ∨ status t = "in_progress" →
          ∃ t', tickets (db out) !! k = Some t'
                ∧ status t' = "completed" ∧ completed_at t' = Some 99%Z
                ∧ same_but_lifecycle t t') ∧
  (∀ k t, tickets Sample.helpdesk !! k = Some t → status t = "completed" →
          tickets (db out) !! k = Some t) ∧
  (∀ k t, tickets Sample.helpdesk !! k = Some t →
          status t ≠ "pending" → status t ≠ "in_progress" →
          tickets (db out) !! k = Some t) ∧
  (∀ k, tickets Sample.helpdesk !! k = None → tickets (db out) !! k = None) ∧
  comments (db out) = comments Sample.helpdesk.
Proof.
  apply (mark_all_completed_spec
           (Sample.request POST Sample.root Sample.no_session)
           99%Z Sample.helpdesk).
  exists Sample.root. split; reflexivity.
Defined.

(** ** Ordered querysets *)

Section first_of_sorted.
Context {A : Type} (R : relation A) `{!∀ x y, Decision (R x y)}.
Context `{!Total R, !Transitive R}.

Lemma head_merge_sort_None (l : list A) :
  head (merge_sort R l) = None ↔ l = [].
Proof.
  rewrite head_None. split.
  - intros Hnil. apply Permutation_nil_r. rewrite <- Hnil.
    by rewrite merge_sort_Permutation.
  - by intros ->.
Qed.

Lemma head_merge_sort_least (l : list A) x :
  head (merge_sort R l) = Some x → x ∈ l ∧ ∀ y, y ∈ l → R x y.
Proof.
  intros Hh. apply head_Some in Hh as [l' Hl'].
  pose proof (merge_sort_Permutation R l) as Hp.
  pose proof (StronglySorted_merge_sort R l) as Hs.
  rewrite Hl' in Hp, Hs. split.
  - rewrite <- Hp. by left.
  - intros y Hy. rewrite <- Hp in Hy.
    apply elem_of_cons in Hy as [-> | Hy].
    + by destruct (total R x x).
    + apply StronglySorted_inv in Hs as [_ Hall].
      by apply (proj1 (Forall_forall _ _) Hall).
Qed.
End first_of_sorted.

Lemma first_None {V} (qs : gmap nat V) : first qs = None ↔ qs = ∅.
Proof.
  unfold first. by rewrite head_merge_sort_None, map_to_list_empty_iff.
Qed.

Lemma first_least {V} (qs : gmap nat V) k v :
  first qs = Some (k, v) →
  qs !! k = Some v ∧ ∀ j w, qs !! j = Some w → k ≤ j.
Proof.
  intros H.
  destruct (head_merge_sort_least by_pk _ _ H) as [Hin Hle].
  split; [by apply elem_of_map_to_list |].
  intros j w Hj. apply elem_of_map_to_list in Hj. apply (Hle _ Hj).
Qed.

Lemma user_set_first_None g : user_set_first g = None ↔ user_set g = ∅.
Proof.
  unfold user_set_first.
  rewrite head_merge_sort_None, elements_empty_iff. by unfold_leibniz.
Qed.

Lemma user_set_first_least g m : user_set_first g = Some m → first_member g m.
Proof.
  intros H.
  destruct (head_merge_sort_least le _ _ H) as [Hin Hle].
  split; [by apply elem_of_elements |].
  intros m' Hm'. apply Hle. by apply elem_of_elements.
Qed.

Lemma order_by_created_at_desc_elem (qs : gmap nat Ticket) k t :
  (k, t) ∈ order_by_created_at_desc qs ↔ qs !! k = Some t.
Proof.
  unfold order_by_created_at_desc.
  by rewrite merge_sort_Permutation, elem_of_map_to_list.
Qed.

Lemma order_by_created_at_desc_NoDup (qs : gmap nat Ticket) :
  NoDup (order_by_created_at_desc qs).*1.
Proof.
  unfold order_by_created_at_desc. rewrite merge_sort_Permutation.
  apply NoDup_fst_map_to_list.
Qed.

Lemma StronglySorted_lookup {A} (R : relation A) (l : list A) i j a b :
  StronglySorted R l → i < j → l !! i = Some a → l !! j = Some b → R a b.
Proof.
  intros Hs. revert i j. induction Hs as [|x l Hs IH Hall]; intros i j Hij Hi Hj.
  - by rewrite lookup_nil in Hi.
  - destruct j as [|j]; [lia|]. simpl in Hj. destruct i as [|i].
    + simpl in Hi. injection Hi as ->.
      apply (proj1 (Forall_forall _ _) Hall). by eapply list_elem_of_lookup_2.
    + simpl in Hi. apply (IH i j); [lia | done | done].
Qed.

Lemma order_by_created_at_desc_sorted (qs : gmap nat Ticket) :
  newest_first (order_by_created_at_desc qs).
Proof.
  intros i j a b Hij Hi Hj.
  apply (StronglySorted_lookup created_at_desc
           (order_by_created_at_desc qs) i j a b); [|done..].
  apply StronglySorted_merge_sort; apply _.
Qed.

(** ** The owner's ticket list *)

Lemma own_visible_spec owner (now : datetime) k t :
  own_visible owner (now - timedelta 0 2)%Z (k, t) = true
  ↔ visible_to_owner owner now t.
Proof.
  unfold own_visible, visible_to_owner, timedelta. simpl.
  rewrite andb_true_iff, orb_true_iff, andb_true_iff, in_list_open.
  rewrite Nat.eqb_eq, String.eqb_eq.
  assert ((match completed_at t with
           | Some c => (now - (0 * 3600 + 0 * 60 + 2 * 60) * 1000000 <? c)%Z
           | None => false
           end = true)
          ↔ ∃ c, completed_at t = Some c ∧ (now - c < 2 * 60 * 1000000)%Z) as ->.
  { destruct (completed_at t) as [c|].
    - rewrite Z.ltb_lt. split.
      + intros H. exists c. split; [done | lia].
      + intros (c' & [= <-] & H). lia.
    - split; [done | by intros (c & ? & _)]. }
  tauto.
Qed.

(** C7. For a logged-in owner, [user_tickets] renders exactly the owner's
    tickets that are pending or in progress, and those completed whose
    [completed_at] is less than two minutes before now; each ticket is
    listed once, newest [created_at] first.  A ticket of the owner
    completed more than two minutes ago is not listed.  The database is
    only read. *)
Theorem user_tickets_spec req u now d :
  user req = Some u →
  ∃ rows,
    user_tickets req now d
    = respond (Render "tickets/user_tickets.html" rows) [] d
    ∧ (∀ k t, (k, t) ∈ rows
              ↔ tickets d !! k = Some t ∧ visible_to_owner (user_id u) now t)
    ∧ NoDup rows.*1
    ∧ newest_first rows
    ∧ (∀ k t c, tickets d !! k = Some t → status t = "completed" →
                completed_at t = Some c → (now - c > 2 * 60 * 1000000)%Z →
                (k, t) ∉ rows).
Proof.
  intros Hu. unfold user_tickets, login_required. rewrite Hu.
  eexists. split; [done|].
  assert (∀ k t, (k, t) ∈ order_by_created_at_desc
                    (filter (λ kv, own_visible (user_id u)
                                     (now - timedelta 0 2)%Z kv = true)
                            (tickets d))
                 ↔ tickets d !! k = Some t
                   ∧ visible_to_owner (user_id u) now t) as Hrows.
  { intros k t.
    by rewrite order_by_created_at_desc_elem, map_lookup_filter_Some,
         own_visible_spec. }
  split; [done|].
  split; [apply order_by_created_at_desc_NoDup |].
  split; [apply order_by_created_at_desc_sorted |].
  intros k t c Ht Hs Hc Hold. rewrite Hrows.
  intros (_ & _ & [Hp | [Hp | (_ & c' & Hc' & Hnew)]]).
  - rewrite Hs in Hp. discriminate.
  - rewrite Hs in Hp. discriminate.
  - rewrite Hc in Hc'. injection Hc' as <-. lia.
Qed.

Lemma user_tickets_spec_witness :
  ∃ rows,
    user_tickets (Sample.request GET Sample.carol Sample.no_session)
                 150000000%Z Sample.helpdesk
    = respond (Render "tickets/user_tickets.html" rows) [] Sample.helpdesk
    ∧ (∀ k t, (k, t) ∈ rows
              ↔ tickets Sample.helpdesk !! k = Some t
                ∧ visible_to_owner (user_id Sample.carol) 150000000%Z t)
    ∧ NoDup rows.*1
    ∧ newest_first rows
    ∧ (∀ k t c, tickets Sample.helpdesk !! k = Some t →
                status t = "completed" → completed_at t = Some c →
                (150000000 - c > 2 * 60 * 1000000)%Z →
                (k, t) ∉ rows).
Proof.
  apply (user_tickets_spec
           (Sample.request GET Sample.carol Sample.no_session)
           Sample.carol 150000000%Z Sample.helpdesk eq_refl).
Defined.

(** The sample list one minute and three minutes after ticket 2 was
    completed (at 30.00002 s): it is listed, then it is not. *)
Example user_tickets_sample :
  (∃ t4 t2 t1,
     response (user_tickets (Sample.request GET Sample.carol Sample.no_session)
                            90000020%Z Sample.helpdesk)
     = Render "tickets/user_tickets.html" [(4, t4); (2, t2); (1, t1)]) ∧
  (∃ t4 t1,
     response (user_tickets (Sample.request GET Sample.carol Sample.no_session)
                            210000020%Z Sample.helpdesk)
     = Render "tickets/user_tickets.html" [(4, t4); (1, t1)]).
Proof. split; repeat eexists; vm_compute; reflexivity. Qed.

(** ** Ticket creation *)

Lemma handler_group_unique d i g qs :
  qs = filter (λ kg : nat * Group, group_name kg.2 = "Handler") (groups d) →
  handler_group d i g → ∀ i0 g0, first qs = Some (i0, g0) → i0 = i ∧ g0 = g.
Proof.
  intros -> (Hi & Hn & Hmin) i0 g0 Hf.
  apply first_least in Hf as [H0 Hleast].
  apply map_lookup_filter_Some in H0 as [H0 Hn0]. simpl in Hn0.
  assert (i0 = i) as ->.
  { apply Nat.le_antisymm.
    - apply (Hleast i g). by apply map_lookup_filter_Some.
    - by apply (Hmin i0 g0). }
  split; [done | congruence].
Qed.

(** C8. A POST of [submit_ticket] by a logged-in user with a title and a
    description stores one new ticket under an unused key: its status is
    "pending", its priority "medium", [completed_at] is null and
    [created_by] is the submitter.  Its handler is null when no group is
    named "Handler" or when the Handler group has no member, and otherwise
    the first member of the Handler group. *)
Theorem submit_ticket_spec req u ti de dep (now : datetime) d :
  user req = Some u → method req = POST →
  ∃ k t,
    tickets d !! k = None
    ∧ submit_ticket req (Some ti) (Some de) dep now d
      = respond (Redirect "user_tickets")
          [(Success, "Ticket submitted successfully.")]
          (with_tickets (<[k := t]> (tickets d)) d)
    ∧ status t = "pending" ∧ priority t = "medium"
    ∧ completed_at t = None ∧ created_by t = user_id u
    ∧ ((∀ i g, groups d !! i = Some g → group_name g ≠ "Handler") →
       handler t = None)
    ∧ (∀ i g, handler_group d i g → user_set g = ∅ → handler t = None)
    ∧ (∀ i g m, handler_group d i g → first_member g m →
                handler t = Some m).
Proof.
  intros Hu Hm. unfold submit_ticket, login_required, create_ticket.
  rewrite Hu, Hm.
  set (qs := filter (λ kg : nat * Group, group_name kg.2 = "Handler")
                    (groups d)).
  eexists _, _. split; [apply not_elem_of_dom, is_fresh |].
  split; [reflexivity |]. cbn [status priority completed_at created_by handler].
  do 4 (split; [done |]).
  destruct (first qs) as [[i0 g0]|] eqn:Hf.
  - split; [|split].
    + intros Hno. apply first_least in Hf as [H0 _].
      apply map_lookup_filter_Some in H0 as [H0 Hn0].
      by destruct (Hno i0 g0 H0).
    + intros i g Hg He.
      destruct (handler_group_unique d i g qs eq_refl Hg i0 g0 Hf) as [-> ->].
      by apply user_set_first_None.
    + intros i g m Hg [Hin Hleast].
      destruct (handler_group_unique d i g qs eq_refl Hg i0 g0 Hf) as [-> ->].
      destruct (user_set_first g) as [m0|] eqn:Hm0.
      * apply user_set_first_least in Hm0 as [Hin0 Hleast0].
        f_equal. apply Nat.le_antisymm; auto.
      * apply user_set_first_None in Hm0. rewrite Hm0 in Hin. set_solver.
  - split; [done | split; [done |]].
    intros i g m (Hi & Hn & _) _. apply first_None in Hf.
    assert (qs !! i = Some g) as Hq by (by apply map_lookup_filter_Some).
    rewrite Hf in Hq. by rewrite lookup_empty in Hq.
Qed.

Lemma submit_ticket_spec_witness :
  ∃ k t,
    tickets Sample.helpdesk !! k = None
    ∧ submit_ticket (Sample.request POST Sample.carol Sample.no_session)
        (Some "VPN down") (Some "Cannot connect since 9") (Some 1) 99%Z
        Sample.helpdesk
      = respond (Redirect "user_tickets")
          [(Success, "Ticket submitted successfully.")]
          (with_tickets (<[k := t]> (tickets Sample.helpdesk)) Sample.helpdesk)
    ∧ status t = "pending" ∧ priority t = "medium"
    ∧ completed_at t = None ∧ created_by t = user_id Sample.carol
    ∧ ((∀ i g, groups Sample.helpdesk !! i = Some g →
               group_name g ≠ "Handler") → handler t = None)
    ∧ (∀ i g, handler_group Sample.helpdesk i g → user_set g = ∅ →
              handler t = None)
    ∧ (∀ i g m, handler_group Sample.helpdesk i g → first_member g m →
                handler t = Some m).
Proof.
  apply (submit_ticket_spec
           (Sample.request POST Sample.carol Sample.no_session) Sample.carol
           "VPN down" "Cannot connect since 9" (Some 1) 99%Z Sample.helpdesk
           eq_refl eq_refl).
Defined.

(** On the sample database the Handler group is {5, 7}: the new ticket
    goes to user 5; with the groups removed it has no handler. *)
Example submit_ticket_sample :
  (∃ t, tickets (db (submit_ticket
                       (Sample.request POST Sample.carol Sample.no_session)
                       (Some "VPN down") (Some "Cannot connect since 9")
                       (Some 1) 99%Z Sample.helpdesk)) !! 5 = Some t
        ∧ handler t = Some 5 ∧ department t = Some 1 ∧ created_at t = 99%Z) ∧
  (∃ t, tickets (db (submit_ticket
                       (Sample.request POST Sample.carol Sample.no_session)
                       (Some "VPN down") (Some "Cannot connect since 9")
                       (Some 8) 99%Z
                       {| groups := ∅;
                          departments := departments Sample.helpdesk;
                          tickets := tickets Sample.helpdesk;
                          comments := comments Sample.helpdesk |})) !! 5
        = Some t
        ∧ handler t = None ∧ department t = None).
Proof. split; eexists; (split; [vm_compute; reflexivity | done]). Qed.

(** ** Where the lifecycle invariant does hold

    The invariant of C1 is kept by every operation except a dashboard
    update that carries no status. *)

Lemma apply_update_consistent p s now t :
  truthy s = true → completed_at_consistent (apply_update p s now t).
Proof.
  intros Hs. unfold completed_at_consistent.
  rewrite apply_update_completed_at, apply_update_status, Hs.
  destruct s as [x|]; [|done]. simpl.
  destruct (String.eqb_spec x "completed"); split; congruence.
Qed.

Lemma all_consistent_insert d k t :
  all_consistent d → completed_at_consistent t →
  all_consistent (with_tickets (<[k := t]> (tickets d)) d).
Proof.
  intros Hd Ht j t' Hj. simpl in Hj.
  apply lookup_insert_Some in Hj as [[_ <-] | [_ Hj]]; [done|].
  by apply (Hd j).
Qed.

Lemma handler_update_with_status_consistent req tid p s now d :
  truthy s = true → all_consistent d →
  all_consistent (db (handler_dashboard req tid p s now d)).
Proof.
  intros Hs Hd. unfold handler_dashboard, login_required.
  destruct (user req) as [u|]; [|done].
  destruct (negb _); [done|].
  destruct (method req); [done|].
  destruct (tickets d !! tid) as [t|]; [|done].
  destruct (_ || _); [|done]. cbn [db respond].
  apply all_consistent_insert; [done|].
  pose proof (apply_update_consistent p s now t Hs) as Hc.
  by destruct (_ && _).
Qed.

Lemma agent_update_with_status_consistent req tid p s now d :
  truthy s = true → all_consistent d →
  all_consistent (db (agent_dashboard req tid p s now d)).
Proof.
  intros Hs Hd. unfold agent_dashboard, login_required, user_passes_test.
  destruct (user req) as [u|]; [|done].
  destruct (is_agent d u); [|done].
  destruct (method req); [done|].
  destruct (tickets d !! tid) as [t|]; [|done].
  destruct (_ || _); [|done]. cbn [db respond].
  apply all_consistent_insert; [done|].
  by apply apply_update_consistent.
Qed.

Lemma submit_ticket_consistent req ti de dep now d :
  all_consistent d → all_consistent (db (submit_ticket req ti de dep now d)).
Proof.
  intros Hd. unfold submit_ticket, login_required.
  destruct (user req) as [u|]; [|done].
  destruct (method req); [done|].
  destruct ti as [ti|], de as [de|]; try done.
  unfold create_ticket. cbn [db respond].
  apply all_consistent_insert; [done|].
  unfold completed_at_consistent. simpl. split; [done | discriminate].
Qed.

Lemma admin_dashboard_consistent req tid p dep d :
  all_consistent d → all_consistent (db (admin_dashboard req tid p dep d)).
Proof.
  intros Hd. unfold admin_dashboard, login_required, user_passes_test.
  destruct (user req) as [u|]; [|done].
  destruct (is_admin u); [|done].
  destruct (method req); [done|].
  destruct (tickets d !! tid) as [t|] eqn:Ht; [|done]. cbn [db respond].
  apply all_consistent_insert; [done|].
  pose proof (Hd tid t Ht) as Hc. unfold completed_at_consistent in *.
  destruct (truthy p), dep as [k|]; [destruct (departments d !! k) | |
                                     destruct (departments d !! k) |]; done.
Qed.

Lemma mark_all_completed_consistent req now d :
  all_consistent d → all_consistent (db (mark_all_completed req now d)).
Proof.
  intros Hd. unfold mark_all_completed, login_required, user_passes_test.
  destruct (user req) as [u|]; [|done].
  destruct (is_admin u); [|done]. cbn [db respond].
  intros k t' Hk. cbn [tickets with_tickets] in Hk.
  rewrite update_where_lookup in Hk.
  destruct (tickets d !! k) as [t|] eqn:Ht; [|done].
  cbn -[in_list] in Hk. injection Hk as <-.
  destruct (in_list (status t) ["pending"; "in_progress"]); [|by apply (Hd k)].
  unfold completed_at_consistent. simpl. split; [done | discriminate].
Qed.

(** A submission without title never reaches the table: the insert of a
    null title is refused and nothing is stored. *)
Example submit_ticket_without_title :
  let out := submit_ticket (Sample.request POST Sample.carol Sample.no_session)
               None (Some "Cannot connect since 9") None 99%Z
               Sample.helpdesk in
  response out = IntegrityError ∧ db out = Sample.helpdesk.
Proof. by split. Qed.

(** ** What one request can do to the database *)

Lemma row_kept_refl t : row_kept t t.
Proof. by repeat split. Qed.

Lemma row_kept_trans t1 t2 t3 : row_kept t1 t2 → row_kept t2 t3 → row_kept t1 t3.
Proof.
  intros (A1 & A2 & A3 & A4 & A5 & A6 & A7) (B1 & B2 & B3 & B4 & B5 & B6 & B7).
  repeat split; try congruence; eauto.
Qed.

Lemma apply_update_row_kept p s now t : row_kept t (apply_update p s now t).
Proof.
  unfold apply_update.
  destruct (truthy p), (truthy s), (equals s "completed"); by repeat split.
Qed.

Lemma effect_update req d k t t' :
  tickets d !! k = Some t → row_kept t t' →
  effect req d (with_tickets (<[k := t']> (tickets d)) d).
Proof.
  intros Ht Hk. apply effect_rewrite. intros j.
  destruct (decide (j = k)) as [-> | Hne].
  - rewrite Ht, lookup_insert_eq. eauto.
  - rewrite lookup_insert_ne by done.
    destruct (tickets d !! j) as [tj|]; [|done].
    eauto using row_kept_refl.
Qed.

Lemma submit_ticket_effect req ti de dep now d :
  effect req d (db (submit_ticket req ti de dep now d)).
Proof.
  unfold submit_ticket, login_required.
  destruct (user req) as [u|]; [|constructor].
  destruct (method req); [constructor|].
  destruct ti as [ti|]; [|constructor].
  destruct de as [de|]; [|constructor].
  unfold create_ticket. cbn.
  apply effect_create; [apply not_elem_of_dom, is_fresh | done | done].
Qed.

Lemma admin_dashboard_effect req k p dep d :
  effect req d (db (admin_dashboard req k p dep d)).
Proof.
  unfold admin_dashboard, login_required, user_passes_test.
  destruct (user req) as [u|]; [|constructor].
  destruct (is_admin u); [|constructor].
  destruct (method req); [constructor|].
  destruct (tickets d !! k) as [t|] eqn:Ht; [|constructor].
  cbn [db respond]. apply (effect_update req d k t); [done|].
  destruct (truthy p), dep as [j|];
    try destruct (departments d !! j); by repeat split.
Qed.

Lemma agent_dashboard_effect req k p s now d :
  effect req d (db (agent_dashboard req k p s now d)).
Proof.
  unfold agent_dashboard, login_required, user_passes_test.
  destruct (user req) as [u|]; [|constructor].
  destruct (is_agent d u); [|constructor].
  destruct (method req); [constructor|].
  destruct (tickets d !! k) as [t|] eqn:Ht; [|constructor].
  destruct (is_None (agent t) || fk_is (agent t) u) eqn:Hb; [|constructor].
  cbn [db respond]. apply (effect_update req d k t); [done|].
  apply (row_kept_trans _ (set_agent (Some (user_id u)) t));
    [|apply apply_update_row_kept].
  apply agent_binding_test in Hb. repeat split; try done.
  simpl. intros a Ha. destruct Hb as [Hb | Hb]; congruence.
Qed.

Lemma handler_dashboard_effect req k p s now d :
  effect req d (db (handler_dashboard req k p s now d)).
Proof.
  unfold handler_dashboard, login_required.
  destruct (user req) as [u|]; [|constructor].
  destruct (negb _); [constructor|].
  destruct (method req); [constructor|].
  destruct (tickets d !! k) as [t|] eqn:Ht; [|constructor].
  destruct (_ || _); [|constructor].
  cbn [db respond]. apply (effect_update req d k t); [done|].
  pose proof (apply_update_row_kept p s now t) as Hk.
  destruct (is_None (handler (apply_update p s now t)) && is_handler d u)
    eqn:Hn; [|done].
  apply andb_true_iff in Hn as [Hn _]. apply is_None_true in Hn.
  rewrite apply_update_handler in Hn.
  apply (row_kept_trans _ _ _ Hk). repeat split; try done.
  rewrite apply_update_handler, Hn. discriminate.
Qed.

Lemma ticket_detail_effect req k text now d :
  effect req d (db (ticket_detail req k text now d)).
Proof.
  unfold ticket_detail, login_required.
  destruct (user req) as [u|]; [|constructor].
  destruct (tickets d !! k) as [t|] eqn:Ht; [|constructor].
  destruct (method req); [constructor|].
  destruct (_ && _); [|constructor].
  unfold create_comment. cbn.
  apply effect_comment; [apply not_elem_of_dom, is_fresh |].
  simpl. by rewrite Ht.
Qed.

Lemma delete_ticket_effect req k d :
  effect req d (db (delete_ticket req k d)).
Proof.
  unfold delete_ticket, login_required, user_passes_test.
  destruct (user req) as [u|] eqn:Hu; [|constructor].
  destruct (is_admin u) eqn:Ha; [|constructor].
  destruct (tickets d !! k) as [t|] eqn:Ht; [|constructor].
  destruct (String.eqb_spec (status t) "completed") as [Hs|]; [|constructor].
  cbn [db respond negb]. apply effect_delete; [by exists u |].
  intros j Hj. apply elem_of_singleton in Hj as ->. by exists t.
Qed.

Lemma delete_selected_effect req ids d :
  effect req d (db (delete_selected req ids d)).
Proof.
  unfold delete_selected, login_required, user_passes_test.
  destruct (user req) as [u|] eqn:Hu; [|constructor].
  destruct (is_admin u) eqn:Ha; [|constructor].
  destruct (method req); [constructor|].
  cbn [db respond]. apply effect_delete; [by exists u |].
  intros j Hj. by apply selected_lookup in Hj as [_ Hj].
Qed.

Lemma mark_all_completed_effect req now d :
  effect req d (db (mark_all_completed req now d)).
Proof.
  unfold mark_all_completed, login_required, user_passes_test.
  destruct (user req) as [u|]; [|constructor].
  destruct (is_admin u); [|constructor].
  cbn [db respond]. apply effect_rewrite. intros k.
  rewrite update_where_lookup.
  destruct (tickets d !! k) as [t|]; [|done]. cbn -[in_list].
  eexists. split; [done|].
  destruct (in_list (status t) ["pending"; "in_progress"]); by repeat split.
Qed.

Lemma urlpatterns_effect c req now d :
  effect req d (db (urlpatterns c req now d)).
Proof.
  destruct c; simpl.
  - apply submit_ticket_effect.
  - unfold user_tickets, login_required. destruct (user req); constructor.
  - apply admin_dashboard_effect.
  - apply agent_dashboard_effect.
  - apply ticket_detail_effect.
  - apply delete_ticket_effect.
  - apply mark_all_completed_effect.
  - apply delete_selected_effect.
  - apply handler_dashboard_effect.
  - unfold after_login, login_required. destruct (user req) as [u|]; [|constructor].
    destruct (is_superuser u), (is_agent d u), (is_handler d u); constructor.
Qed.

Lemma effect_tables req d d' :
  effect req d d' → groups d' = groups d ∧ departments d' = departments d.
Proof. by destruct 1. Qed.

Lemma effect_ticket req d d' k t :
  effect req d d' → tickets d !! k = Some t →
  (∃ t', tickets d' !! k = Some t' ∧ row_kept t t')
  ∨ (tickets d' !! k = None ∧ status t = "completed" ∧ from_admin req).
Proof.
  intros He Ht. destruct He as [| ts Hts | j tj Hj _ _ | ids Ha Hids | c cm _ _].
  - left. eauto using row_kept_refl.
  - left. specialize (Hts k). by rewrite Ht in Hts.
  - left. exists t. split; [|apply row_kept_refl]. simpl.
    rewrite lookup_insert_ne; [done | congruence].
  - rewrite delete_tickets_lookup. case_decide as Hk.
    + right. destruct (Hids k Hk) as (t0 & Ht0 & Hs). split; [done|].
      split; [congruence | done].
    + left. eauto using row_kept_refl.
  - left. eauto using row_kept_refl.
Qed.

Lemma effect_new_ticket req d d' k t' :
  effect req d d' → tickets d !! k = None → tickets d' !! k = Some t' →
  status t' = "pending" ∧ completed_at t' = None.
Proof.
  intros He Hn Ht'.
  destruct He as [| ts Hts | j tj Hj Hs Hc | ids Ha Hids | c cm _ _].
  - congruence.
  - specialize (Hts k). rewrite Hn in Hts. simpl in Ht'. congruence.
  - simpl in Ht'. apply lookup_insert_Some in Ht' as [[_ <-] | [_ Ht']];
      [done | congruence].
  - rewrite delete_tickets_lookup in Ht'. case_decide; congruence.
  - simpl in Ht'. congruence.
Qed.

Lemma effect_old_comment req d d' c cm :
  effect req d d' → comments d !! c = Some cm →
  comments d' !! c = Some cm
  ∨ (comments d' !! c = None ∧ from_admin req
     ∧ completed_in d (comment_ticket cm)
     ∧ tickets d' !! comment_ticket cm = None).
Proof.
  intros He Hc. destruct He as [| ts Hts | j tj Hj _ _ | ids Ha Hids | c0 cm0 Hc0 _].
  - by left.
  - by left.
  - by left.
  - destruct (decide (comment_ticket cm ∈ ids)) as [Hin | Hout].
    + right. split; [|split; [done | split; [by apply Hids |]]].
      * destruct (comments (delete_tickets ids d) !! c) as [cm'|] eqn:E; [|done].
        apply delete_tickets_comments in E as [E Hno].
        rewrite Hc in E. injection E as <-. done.
      * rewrite delete_tickets_lookup. by rewrite decide_True.
    + left. by apply delete_tickets_comments.
  - left. simpl. rewrite lookup_insert_ne; [done | congruence].
Qed.

Lemma effect_attached req d d' :
  effect req d d' → comments_attached d → comments_attached d'.
Proof.
  intros He Hd. destruct He as [| ts Hts | j tj Hj _ _ | ids Ha Hids | c0 cm0 Hc0 Hk].
  - done.
  - intros c cm Hc. simpl in *. destruct (Hd c cm Hc) as [t Ht].
    specialize (Hts (comment_ticket cm)). rewrite Ht in Hts.
    destruct Hts as (t' & Ht' & _). by exists t'.
  - intros c cm Hc. simpl in *. destruct (Hd c cm Hc) as [t Ht].
    destruct (decide (comment_ticket cm = j)) as [-> | Hne].
    + rewrite lookup_insert_eq. eauto.
    + rewrite lookup_insert_ne by done. eauto.
  - intros c cm Hc. apply delete_tickets_comments in Hc as [Hc Hout].
    rewrite delete_tickets_lookup, decide_False by done. by apply (Hd c).
  - intros c cm Hc. simpl in *.
    apply lookup_insert_Some in Hc as [[_ <-] | [_ Hc]]; [done|].
    by apply (Hd c).
Qed.

(** ** Who gets in *)

Lemma not_admin_view req d view :
  ¬ from_admin req →
  login_required req d (λ u, user_passes_test is_admin u d view)
  = respond (Redirect "login") [] d.
Proof.
  intros Hn. unfold login_required, user_passes_test, is_admin.
  destruct (user req) as [u|] eqn:Hu; [|done].
  destruct (is_superuser u) eqn:Hs; [|done].
  destruct Hn. by exists u.
Qed.

(** X1. A request without a logged-in user is sent to the login page by
    every route, with no message and the database as it was. *)
Theorem anonymous_is_sent_to_login c req now d :
  user req = None →
  urlpatterns c req now d = respond (Redirect "login") [] d.
Proof.
  intros Hu.
  destruct c; simpl;
    unfold submit_ticket, user_tickets, admin_dashboard, agent_dashboard,
      ticket_detail, delete_ticket, mark_all_completed, delete_selected,
      handler_dashboard, after_login, login_required;
    by rewrite Hu.
Qed.

Lemma anonymous_is_sent_to_login_witness :
  urlpatterns (delete_selected_url [2])
    {| method := POST; user := None; session := Sample.legacy_session |}
    99%Z Sample.helpdesk
  = respond (Redirect "login") [] Sample.helpdesk.
Proof.
  apply (anonymous_is_sent_to_login (delete_selected_url [2])
           {| method := POST; user := None; session := Sample.legacy_session |}
           99%Z Sample.helpdesk eq_refl).
Defined.

(** X2. The views behind a role test answer a logged-in user who lacks the
    role with a redirect to the login page and change nothing: the four
    admin views for a user who is no superuser, the agent dashboard for a
    user outside the Agent group, and the handler dashboard for a user
    outside the Handler group whose session has no [handler_logged_in]
    flag, whatever else the session holds. *)
Theorem role_gates_refuse_others req u k p s dep ids now d :
  user req = Some u →
  let bounced := respond (Redirect "login") [] d in
  (is_superuser u = false →
   admin_dashboard req k p dep d = bounced
   ∧ delete_ticket req k d = bounced
   ∧ mark_all_completed req now d = bounced
   ∧ delete_selected req ids d = bounced) ∧
  (is_agent d u = false → agent_dashboard req k p s now d = bounced) ∧
  (is_handler d u = false → handler_logged_in (session req) = false →
   handler_dashboard req k p s now d = bounced).
Proof.
  intros Hu bounced. subst bounced. split; [|split].
  - intros Hs.
    assert (¬ from_admin req) as Hn.
    { intros (u' & Hu' & Hs'). congruence. }
    unfold admin_dashboard, delete_ticket, mark_all_completed, delete_selected.
    by rewrite !not_admin_view.
  - intros Ha. unfold agent_dashboard, login_required, user_passes_test.
    by rewrite Hu, Ha.
  - intros Hh Hf. unfold handler_dashboard, login_required.
    by rewrite Hu, Hh, Hf.
Qed.

Lemma role_gates_refuse_others_witness :
  let req := Sample.request POST Sample.carol
               {| handler_logged_in := false; handler_user := Some "handler" |} in
  let bounced := respond (Redirect "login") [] Sample.helpdesk in
  (is_superuser Sample.carol = false →
   admin_dashboard req 2 (Some "high") None Sample.helpdesk = bounced
   ∧ delete_ticket req 2 Sample.helpdesk = bounced
   ∧ mark_all_completed req 99%Z Sample.helpdesk = bounced
   ∧ delete_selected req [2] Sample.helpdesk = bounced) ∧
  (is_agent Sample.helpdesk Sample.carol = false →
   agent_dashboard req 2 (Some "high") None 99%Z Sample.helpdesk = bounced) ∧
  (is_handler Sample.helpdesk Sample.carol = false →
   handler_logged_in (session req) = false →
   handler_dashboard req 2 (Some "high") None 99%Z Sample.helpdesk = bounced).
Proof.
  apply (role_gates_refuse_others
           (Sample.request POST Sample.carol
              {| handler_logged_in := false; handler_user := Some "handler" |})
           Sample.carol 2 (Some "high") None None [2] 99%Z Sample.helpdesk
           eq_refl).
Defined.

(** X3. A ticket id that names no ticket gives a 404 and leaves the
    database as it was: in [delete_ticket] and [ticket_detail] for every
    method, in the three dashboards for a POST, each for a request that
    passed the view's own entry test. *)
Theorem missing_ticket_is_not_found req u k p s dep text now d :
  user req = Some u → tickets d !! k = None →
  let not_found := respond Http404 [] d in
  ticket_detail req k text now d = not_found ∧
  (is_superuser u = true → delete_ticket req k d = not_found) ∧
  (method req = POST →
   (is_superuser u = true → admin_dashboard req k p dep d = not_found) ∧
   (is_agent d u = true → agent_dashboard req k p s now d = not_found) ∧
   (handler_gate req d u → handler_dashboard req k p s now d = not_found)).
Proof.
  intros Hu Hk not_found. subst not_found.
  split; [|split; [|intros Hm; split; [|split]]].
  - unfold ticket_detail, login_required. by rewrite Hu, Hk.
  - intros Hs. unfold delete_ticket.
    rewrite admin_view by (by exists u). by rewrite Hk.
  - intros Hs. unfold admin_dashboard.
    rewrite admin_view by (by exists u). by rewrite Hm, Hk.
  - intros Ha. unfold agent_dashboard, login_required, user_passes_test.
    by rewrite Hu, Ha, Hm, Hk.
  - intros Hg. apply handler_gate_test in Hg.
    unfold handler_dashboard, login_required. by rewrite Hu, Hg, Hm, Hk.
Qed.

Lemma missing_ticket_is_not_found_witness :
  let req := Sample.request POST Sample.root Sample.flag_session in
  let not_found := respond Http404 [] Sample.helpdesk in
  ticket_detail req 3 (Some "hello") 99%Z Sample.helpdesk = not_found ∧
  (is_superuser Sample.root = true →
   delete_ticket req 3 Sample.helpdesk = not_found) ∧
  (method req = POST →
   (is_superuser Sample.root = true →
    admin_dashboard req 3 (Some "high") None Sample.helpdesk = not_found) ∧
   (is_agent Sample.helpdesk Sample.root = true →
    agent_dashboard req 3 (Some "high") None 99%Z Sample.helpdesk = not_found) ∧
   (handler_gate req Sample.helpdesk Sample.root →
    handler_dashboard req 3 (Some "high") None 99%Z Sample.helpdesk
    = not_found)).
Proof.
  apply (missing_ticket_is_not_found
           (Sample.request POST Sample.root Sample.flag_session) Sample.root
           3 (Some "high") None None (Some "hello") 99%Z Sample.helpdesk
           eq_refl).
  vm_compute. reflexivity.
Defined.

(** X4. A GET changes nothing in any view that looks at the method.  The
    two views that do not look at it write on a GET as well: an admin's GET
    of [delete_ticket] removes a completed ticket, and an admin's GET of
    [mark_all_completed] completes the pending and in-progress tickets. *)
Theorem get_requests_and_writes c req now k d :
  method req = GET →
  (checks_method c → db (urlpatterns c req now d) = d) ∧
  (from_admin req → completed_in d k →
   tickets (db (delete_ticket req k d)) !! k = None) ∧
  (from_admin req →
   ∀ j t, tickets d !! j = Some t →
          status t = "pending" ∨ status t = "in_progress" →
          ∃ t', tickets (db (mark_all_completed req now d)) !! j = Some t'
                ∧ status t' = "completed").
Proof.
  intros Hm. split; [|split].
  - intros Hc. destruct c; simpl in *; try done;
      unfold submit_ticket, user_tickets, admin_dashboard, agent_dashboard,
        ticket_detail, delete_selected, handler_dashboard, after_login,
        login_required, user_passes_test;
      rewrite ?Hm; destruct (user req) as [u|]; try done.
    + by destruct (is_admin u).
    + by destruct (is_agent d u).
    + by destruct (tickets d !! ticket_id).
    + by destruct (is_admin u).
    + by destruct (negb _).
    + by destruct (is_superuser u), (is_agent d u), (is_handler d u).
  - intros Ha (t & Ht & Hs). unfold delete_ticket.
    rewrite admin_view by done. rewrite Ht, Hs. cbn.
    rewrite delete_tickets_lookup. by rewrite decide_True by set_solver.
  - intros Ha j t Ht Hs. unfold mark_all_completed.
    rewrite admin_view by done. cbn.
    rewrite update_where_lookup, Ht. cbn -[in_list].
    apply in_list_open in Hs. rewrite Hs. by eexists.
Qed.

Lemma get_requests_and_writes_witness :
  let req := Sample.request GET Sample.root Sample.no_session in
  (checks_method (delete_selected_url [2]) →
   db (urlpatterns (delete_selected_url [2]) req 99%Z Sample.helpdesk)
   = Sample.helpdesk) ∧
  (from_admin req → completed_in Sample.helpdesk 2 →
   tickets (db (delete_ticket req 2 Sample.helpdesk)) !! 2 = None) ∧
  (from_admin req →
   ∀ j t, tickets Sample.helpdesk !! j = Some t →
          status t = "pending" ∨ status t = "in_progress" →
          ∃ t', tickets (db (mark_all_completed req 99%Z Sample.helpdesk)) !! j
                = Some t'
                ∧ status t' = "completed").
Proof.
  apply (get_requests_and_writes (delete_selected_url [2])
           (Sample.request GET Sample.root Sample.no_session)
           99%Z 2 Sample.helpdesk eq_refl).
Defined.

(** A GET of the delete route by an admin does delete. *)
Example delete_ticket_by_get :
  tickets (db (delete_ticket (Sample.request GET Sample.root Sample.no_session)
                 2 Sample.helpdesk)) !! 2 = None.
Proof. vm_compute. reflexivity. Qed.

(** ** What no request to the ticket pages does

    The statements of this section are about the ten ticket page views,
    [submit_ticket], [user_tickets], [admin_dashboard],
    [agent_dashboard], [ticket_detail], [delete_ticket],
    [mark_all_completed], [delete_selected], [handler_dashboard] and
    [after_login],
    which is what [Call] ranges over; the login, signup, logout and API
    routes are outside them. *)

(** X5. Whatever request one of the ten ticket page views receives, a
    ticket that is still there afterwards has the title, description,
    owner, creation time and [sla_due] it had before. *)
Theorem tickets_keep_their_identity c req now d k t t' :
  tickets d !! k = Some t →
  tickets (db (urlpatterns c req now d)) !! k = Some t' →
  title t' = title t ∧ description t' = description t
  ∧ created_by t' = created_by t ∧ created_at t' = created_at t
  ∧ sla_due t' = sla_due t.
Proof.
  intros Ht Ht'.
  destruct (effect_ticket req d _ k t (urlpatterns_effect c req now d) Ht)
    as [(t0 & Ht0 & Hk) | (Hgone & _)]; [|congruence].
  rewrite Ht0 in Ht'. injection Ht' as <-.
  destruct Hk as (? & ? & ? & ? & ? & _). done.
Qed.

Lemma tickets_keep_their_identity_witness :
  let t := Sample.ticket "completed" (Some 30000020%Z) 20%Z 3 (Some 5) in
  let t' := set_completed_at None
              (set_status "pending" (set_priority "urgent" t)) in
  title t' = title t ∧ description t' = description t
  ∧ created_by t' = created_by t ∧ created_at t' = created_at t
  ∧ sla_due t' = sla_due t.
Proof.
  apply (tickets_keep_their_identity
           (handler_dashboard_url 2 (Some "urgent") (Some "pending"))
           (Sample.request POST Sample.alice Sample.no_session)
           99%Z Sample.helpdesk 2).
  - vm_compute. reflexivity.
  - vm_compute. reflexivity.
Defined.

(** X6. None of the ten ticket page views removes a ticket that is not
    completed, and none removes a ticket for a request that does not come
    from a superuser. *)
Theorem only_completed_tickets_are_deleted c req now d k t :
  tickets d !! k = Some t →
  tickets (db (urlpatterns c req now d)) !! k = None →
  status t = "completed" ∧ from_admin req.
Proof.
  intros Ht Hgone.
  destruct (effect_ticket req d _ k t (urlpatterns_effect c req now d) Ht)
    as [(t0 & Ht0 & _) | (_ & Hs & Ha)]; [congruence | done].
Qed.

Lemma only_completed_tickets_are_deleted_witness :
  status (Sample.ticket "completed" (Some 30000020%Z) 20%Z 3 (Some 5))
  = "completed"
  ∧ from_admin (Sample.request POST Sample.root Sample.no_session).
Proof.
  apply (only_completed_tickets_are_deleted
           (delete_selected_url [1; 2])
           (Sample.request POST Sample.root Sample.no_session)
           99%Z Sample.helpdesk 2).
  - vm_compute. reflexivity.
  - vm_compute. reflexivity.
Defined.

(** X7. None of the ten ticket page views edits a comment.  After any
    request to one of them a comment is either exactly as it was, or it is
    gone because a superuser's request removed the completed ticket it
    belonged to. *)
Theorem comments_are_never_edited c req now d k cm :
  comments d !! k = Some cm →
  let d' := db (urlpatterns c req now d) in
  comments d' !! k = Some cm
  ∨ (comments d' !! k = None ∧ from_admin req
     ∧ completed_in d (comment_ticket cm)
     ∧ tickets d' !! comment_ticket cm = None).
Proof.
  intros Hc. apply (effect_old_comment req); [|done].
  apply urlpatterns_effect.
Qed.

Lemma comments_are_never_edited_witness :
  let cm := {| comment_ticket := 2; comment_user := 3;
               comment_text := "thanks"; comment_created_at := 25%Z |} in
  let req := Sample.request POST Sample.root Sample.no_session in
  let d' := db (urlpatterns (delete_ticket_url 2) req 99%Z Sample.helpdesk) in
  comments d' !! 1 = Some cm
  ∨ (comments d' !! 1 = None ∧ from_admin req
     ∧ completed_in Sample.helpdesk (comment_ticket cm)
     ∧ tickets d' !! comment_ticket cm = None).
Proof.
  apply (comments_are_never_edited (delete_ticket_url 2)
           (Sample.request POST Sample.root Sample.no_session)
           99%Z Sample.helpdesk 1).
  vm_compute. reflexivity.
Defined.

(** X8. Through any sequence of requests to the ten ticket page views
    every comment keeps a ticket: if each comment belongs to a ticket of
    the table before, each one does after. *)
Theorem comments_stay_attached hits d :
  comments_attached d → comments_attached (serve hits d).
Proof.
  revert d. induction hits as [|h hits IH]; intros d Hd; [done|].
  simpl. apply IH. eapply effect_attached; [apply urlpatterns_effect | done].
Qed.

Lemma sample_comments_attached : comments_attached Sample.helpdesk.
Proof.
  intros c cm Hc. unfold Sample.helpdesk in Hc. simpl in Hc.
  apply lookup_insert_Some in Hc as [[_ <-] | [_ Hc]]; [by eexists |].
  apply lookup_singleton_Some in Hc as [_ <-]. by eexists.
Defined.

Lemma comments_stay_attached_witness :
  comments_attached
    (serve [ {| hit_call := ticket_detail_url 2 (Some " closing ");
                hit_request := Sample.request POST Sample.carol Sample.no_session;
                hit_time := 40%Z |};
             {| hit_call := mark_all_completed_url;
                hit_request := Sample.request GET Sample.root Sample.no_session;
                hit_time := 50%Z |};
             {| hit_call := delete_selected_url [1; 2];
                hit_request := Sample.request POST Sample.root Sample.no_session;
                hit_time := 60%Z |} ]
       Sample.helpdesk).
Proof.
  apply (comments_stay_attached _ Sample.helpdesk sample_comments_attached).
Defined.

(** X9. No sequence of requests to the ten ticket page views changes the
    groups or the departments, so nobody gains or loses the agent or
    handler role through these views. *)
Theorem groups_and_departments_are_fixed hits d :
  groups (serve hits d) = groups d
  ∧ departments (serve hits d) = departments d
  ∧ (∀ u, is_handler (serve hits d) u = is_handler d u)
  ∧ (∀ u, is_agent (serve hits d) u = is_agent d u).
Proof.
  assert (groups (serve hits d) = groups d
          ∧ departments (serve hits d) = departments d) as [Hg Hd].
  { revert d. induction hits as [|h hits IH]; intros d; [done|].
    simpl. destruct (IH (db (urlpatterns (hit_call h) (hit_request h)
                                (hit_time h) d))) as [-> ->].
    apply (effect_tables (hit_request h)), urlpatterns_effect. }
  split; [done | split; [done |]].
  unfold is_handler, is_agent, in_group. by rewrite Hg.
Qed.

(** X10. None of the ten ticket page views replaces a handler or an
    agent: a ticket that has one and is still there after a request to one
    of them has the same one. *)
Theorem handler_and_agent_are_never_replaced c req now d k t t' :
  tickets d !! k = Some t →
  tickets (db (urlpatterns c req now d)) !! k = Some t' →
  (∀ a, handler t = Some a → handler t' = Some a)
  ∧ (∀ a, agent t = Some a → agent t' = Some a).
Proof.
  intros Ht Ht'.
  destruct (effect_ticket req d _ k t (urlpatterns_effect c req now d) Ht)
    as [(t0 & Ht0 & Hk) | (Hgone & _)]; [|congruence].
  rewrite Ht0 in Ht'. injection Ht' as <-.
  destruct Hk as (_ & _ & _ & _ & _ & Hh & Ha). done.
Qed.

Lemma handler_and_agent_are_never_replaced_witness :
  let t := Sample.ticket "completed" (Some 30000020%Z) 20%Z 3 (Some 5) in
  let t' := set_completed_at None (set_status "pending" t) in
  (∀ a, handler t = Some a → handler t' = Some a)
  ∧ (∀ a, agent t = Some a → agent t' = Some a).
Proof.
  apply (handler_and_agent_are_never_replaced
           (handler_dashboard_url 2 None (Some "pending"))
           (Sample.request POST Sample.carol Sample.legacy_session)
           99%Z Sample.helpdesk 2).
  - vm_compute. reflexivity.
  - vm_compute. reflexivity.
Defined.

(** X11. A ticket that a request to one of the ten ticket page views
    brings into the table is pending and has no completion stamp. *)
Theorem new_tickets_start_pending c req now d k t' :
  tickets d !! k = None →
  tickets (db (urlpatterns c req now d)) !! k = Some t' →
  status t' = "pending" ∧ completed_at t' = None.
Proof.
  intros Hn Ht'.
  apply (effect_new_ticket req d (db (urlpatterns c req now d)) k t');
    [apply urlpatterns_effect | done | done].
Qed.

Lemma new_tickets_start_pending_witness :
  let t' := {| title := "VPN down"; description := "since 9";
               created_by := 3; agent := None; handler := Some 5;
               department := None; status := "pending";
               completed_at := None; created_at := 99%Z; sla_due := None;
               priority := "medium" |} in
  status t' = "pending" ∧ completed_at t' = None.
Proof.
  apply (new_tickets_start_pending
           (submit_ticket_url (Some "VPN down") (Some "since 9") None)
           (Sample.request POST Sample.carol Sample.no_session)
           99%Z Sample.helpdesk 5).
  - vm_compute. reflexivity.
  - vm_compute. reflexivity.
Defined.

Lemma delete_tickets_consistent ids d :
  all_consistent d → all_consistent (delete_tickets ids d).
Proof.
  intros Hd k t Hk. rewrite delete_tickets_lookup in Hk.
  case_decide; [done|]. by apply (Hd k).
Qed.

Lemma urlpatterns_consistent h d :
  carries_status h → all_consistent d →
  all_consistent (db (urlpatterns (hit_call h) (hit_request h) (hit_time h) d)).
Proof.
  destruct h as [c req now]. unfold carries_status. simpl.
  intros Hs Hd. destruct c; simpl.
  - by apply submit_ticket_consistent.
  - unfold user_tickets, login_required. by destruct (user req).
  - by apply admin_dashboard_consistent.
  - by apply agent_update_with_status_consistent.
  - unfold ticket_detail, login_required.
    destruct (user req) as [u|]; [|done].
    destruct (tickets d !! ticket_id); [|done].
    destruct (method req); [done|].
    by destruct (_ && _).
  - unfold delete_ticket, login_required, user_passes_test.
    destruct (user req) as [u|]; [|done].
    destruct (is_admin u); [|done].
    destruct (tickets d !! ticket_id) as [t|]; [|done].
    destruct (negb _); [done|]. by apply delete_tickets_consistent.
  - by apply mark_all_completed_consistent.
  - unfold delete_selected, login_required, user_passes_test.
    destruct (user req) as [u|]; [|done].
    destruct (is_admin u); [|done].
    destruct (method req); [done|]. by apply delete_tickets_consistent.
  - by apply handler_update_with_status_consistent.
  - unfold after_login, login_required.
    destruct (user req) as [u|]; [|done].
    by destruct (is_superuser u), (is_agent d u), (is_handler d u).
Qed.

(** X12. Through any sequence of requests to the ten ticket page views
    in which every dashboard update posts a status, the completion stamp
    stays in step with the status: if every ticket has [completed_at]
    exactly when it is completed before, every ticket has afterwards. *)
Theorem lifecycle_kept_when_status_is_posted hits d :
  Forall carries_status hits → all_consistent d →
  all_consistent (serve hits d).
Proof.
  intros Hall. revert d.
  induction Hall as [|h hits Hh _ IH]; intros d Hd; [done|].
  simpl. by apply IH, urlpatterns_consistent.
Qed.

Lemma sample_all_consistent : all_consistent Sample.helpdesk.
Proof.
  intros k t Hk. unfold Sample.helpdesk in Hk. simpl in Hk.
  repeat (apply lookup_insert_Some in Hk as [[_ <-] | [_ Hk]];
          [unfold completed_at_consistent; simpl; split; congruence |]).
  apply lookup_singleton_Some in Hk as [_ <-].
  unfold completed_at_consistent; simpl; split; congruence.
Defined.

Lemma lifecycle_kept_when_status_is_posted_witness :
  all_consistent
    (serve [ {| hit_call := handler_dashboard_url 2 (Some "high") (Some "pending");
                hit_request := Sample.request POST Sample.alice Sample.no_session;
                hit_time := 40%Z |};
             {| hit_call := agent_dashboard_url 1 None (Some "completed");
                hit_request := Sample.request POST Sample.bob Sample.no_session;
                hit_time := 50%Z |};
             {| hit_call := mark_all_completed_url;
                hit_request := Sample.request POST Sample.root Sample.no_session;
                hit_time := 60%Z |} ]
       Sample.helpdesk).
Proof.
  apply (lifecycle_kept_when_status_is_posted _ Sample.helpdesk).
  - repeat constructor.
  - exact sample_all_consistent.
Defined.

(** ** The agent flow and the supervisor's review *)

(** X13. Claim-on-write in the agent dashboard.  For a POST by a member of
    the Agent group on an existing ticket, the update succeeds exactly when
    the ticket has no agent or its agent is the actor; an accepted update
    stores the actor as the ticket's agent and leaves the handler alone; a
    refused one reports "You are not allowed to update this ticket." and
    changes nothing. *)
Theorem agent_update_claim_on_write req u tid (p s : option string) now d t :
  user req = Some u → method req = POST → is_agent d u = true →
  tickets d !! tid = Some t →
  let out := agent_dashboard req tid p s now d in
  (updated "Task updated successfully!" out ↔ agent_binding u t) ∧
  (¬ agent_binding u t → refused out ∧ db out = d) ∧
  (agent_binding u t →
   ∃ t', tickets (db out) !! tid = Some t'
         ∧ agent t' = Some (user_id u) ∧ handler t' = handler t).
Proof.
  intros Hu Hm Ha Ht out.
  assert (¬ agent_binding u t → refused out ∧ db out = d) as Href.
  { intros Hb. subst out.
    by rewrite (agent_dashboard_refuses req u tid p s now d t). }
  split; [|split; [done |]].
  - split.
    + intros Hok. destruct (decide (agent_binding u t)) as [|Hb]; [done|].
      apply Href in Hb as [Hb _]. unfold updated, refused in *. congruence.
    + intros Hb. subst out.
      by rewrite (agent_dashboard_accepts req u tid p s now d t).
  - intros Hb. subst out.
    rewrite (agent_dashboard_accepts req u tid p s now d t) by done.
    simpl. rewrite lookup_insert_eq. eexists. split; [done|].
    by rewrite apply_update_agent, apply_update_handler.
Qed.

Lemma agent_update_claim_on_write_witness :
  let req := Sample.request POST Sample.bob Sample.no_session in
  let t := Sample.ticket "pending" None 10%Z 3 None in
  let out := agent_dashboard req 1 (Some "high") None 99%Z Sample.helpdesk in
  (updated "Task updated successfully!" out ↔ agent_binding Sample.bob t) ∧
  (¬ agent_binding Sample.bob t → refused out ∧ db out = Sample.helpdesk) ∧
  (agent_binding Sample.bob t →
   ∃ t', tickets (db out) !! 1 = Some t'
         ∧ agent t' = Some (user_id Sample.bob) ∧ handler t' = handler t).
Proof.
  apply (agent_update_claim_on_write
           (Sample.request POST Sample.bob Sample.no_session) Sample.bob 1
           (Some "high") None 99%Z Sample.helpdesk
           (Sample.ticket "pending" None 10%Z 3 None) eq_refl eq_refl).
  - vm_compute. reflexivity.
  - vm_compute. reflexivity.
Defined.

(** X14. The supervisor's review.  An admin's POST to [admin_dashboard]
    on an existing ticket always reports success and touches only priority
    and department: status, completion stamp, handler and agent stay.  A
    non-empty priority is stored as posted, an absent or empty one keeps
    the old.  A posted department id is stored when it names a department
    and clears the department when it names none; without one the
    department stays. *)
Theorem admin_review_spec req tid (p : option string) (dep : option nat) d t :
  from_admin req → method req = POST → tickets d !! tid = Some t →
  let out := admin_dashboard req tid p dep d in
  messages out = [(Success, "Ticket updated by admin (supervisor).")] ∧
  ∃ t', tickets (db out) !! tid = Some t'
        ∧ status t' = status t ∧ completed_at t' = completed_at t
        ∧ handler t' = handler t ∧ agent t' = agent t
        ∧ (∀ x, p = Some x → x ≠ "" → priority t' = x)
        ∧ (p = None ∨ p = Some "" → priority t' = priority t)
        ∧ (dep = None → department t' = department t)
        ∧ (∀ j, dep = Some j → is_Some (departments d !! j) →
                department t' = Some j)
        ∧ (∀ j, dep = Some j → departments d !! j = None →
                department t' = None).
Proof.
  intros Ha Hm Ht out. subst out. unfold admin_dashboard.
  rewrite admin_view by done. rewrite Hm, Ht. cbn.
  split; [done|]. rewrite lookup_insert_eq. eexists. split; [done|].
  assert (∀ x, p = Some x → x ≠ "" → truthy p = true) as Hp.
  { intros x -> Hx. simpl. apply negb_true_iff. by apply String.eqb_neq. }
  assert (p = None ∨ p = Some "" → truthy p = false) as Hp'.
  { by intros [-> | ->]. }
  destruct (truthy p) eqn:Htp;
    (destruct dep as [j|]; [destruct (departments d !! j) as [dp|] eqn:Hj |]);
    repeat split; simpl; try done;
    try (intros x Hx Hne; specialize (Hp x Hx Hne); subst; simpl; congruence);
    try (intros Hno; specialize (Hp' Hno); congruence);
    try (intros j' [= <-] Hj';
         first [ done | congruence | destruct Hj' as [? ?]; congruence ]).
Qed.

Lemma admin_review_spec_witness :
  let req := Sample.request POST Sample.root Sample.no_session in
  let t := Sample.ticket "completed" (Some 30000020%Z) 20%Z 3 (Some 5) in
  let out := admin_dashboard req 2 (Some "urgent") (Some 9) Sample.helpdesk in
  messages out = [(Success, "Ticket updated by admin (supervisor).")] ∧
  ∃ t', tickets (db out) !! 2 = Some t'
        ∧ status t' = status t ∧ completed_at t' = completed_at t
        ∧ handler t' = handler t ∧ agent t' = agent t
        ∧ (∀ x, Some "urgent" = Some x → x ≠ "" → priority t' = x)
        ∧ (Some "urgent" = None ∨ Some "urgent" = Some "" →
           priority t' = priority t)
        ∧ (Some 9 = None → department t' = department t)
        ∧ (∀ j, Some 9 = Some j → is_Some (departments Sample.helpdesk !! j) →
                department t' = Some j)
        ∧ (∀ j, Some 9 = Some j → departments Sample.helpdesk !! j = None →
                department t' = None).
Proof.
  apply (admin_review_spec
           (Sample.request POST Sample.root Sample.no_session) 2
           (Some "urgent") (Some 9) Sample.helpdesk
           (Sample.ticket "completed" (Some 30000020%Z) 20%Z 3 (Some 5))).
  - exists Sample.root. split; reflexivity.
  - reflexivity.
  - vm_compute. reflexivity.
Defined.

(** ** Bulk operations, once more *)

Lemma with_tickets_same d : with_tickets (tickets d) d = d.
Proof. by destruct d. Qed.

Lemma delete_tickets_none ids d :
  (∀ k, k ∈ ids → tickets d !! k = None) →
  (∀ c cm, comments d !! c = Some cm → comment_ticket cm ∉ ids) →
  delete_tickets ids d = d.
Proof.
  intros Ht Hc. destruct d as [g dp ts cs]. unfold delete_tickets. simpl in *.
  f_equal.
  - apply map_filter_id. intros k t Hk Hin. simpl in Hin.
    specialize (Ht k Hin). congruence.
  - apply map_filter_id. intros c cm Hcm. by apply (Hc c).
Qed.

(** X15. After an admin's [mark_all_completed] no ticket is pending or in
    progress, and a second [mark_all_completed], by anyone and at any
    later time, changes nothing: the completion stamps of the first run
    stay. *)
Theorem mark_all_completed_twice req req' now now' d :
  from_admin req →
  let d1 := db (mark_all_completed req now d) in
  open_count d1 = 0 ∧ db (mark_all_completed req' now' d1) = d1.
Proof.
  intros Ha d1.
  set (p := λ t : Ticket, in_list (status t) ["pending"; "in_progress"]).
  set (f := λ t : Ticket, set_completed_at (Some now) (set_status "completed" t)).
  assert (d1 = with_tickets (update_where p f (tickets d)) d) as ->.
  { subst d1. unfold mark_all_completed. by rewrite admin_view. }
  assert (∀ k t1, update_where p f (tickets d) !! k = Some t1 → p t1 = false)
    as Hdone.
  { intros k t1. rewrite update_where_lookup.
    destruct (tickets d !! k) as [t|]; [|done]. cbn -[in_list].
    intros [= <-]. destruct (p t) eqn:Hp; [done | exact Hp]. }
  split.
  - unfold open_count. apply map_size_empty_iff, map_empty. intros k.
    apply map_lookup_filter_None. right. intros t1 Ht1 Hopen.
    apply Hdone in Ht1. apply in_list_open in Hopen.
    unfold p in Ht1. simpl in *. congruence.
  - unfold mark_all_completed, login_required, user_passes_test.
    destruct (user req') as [u'|]; [|done].
    destruct (is_admin u'); [|done]. cbn.
    unfold with_tickets. cbn. f_equal.
    apply map_eq. intros k. rewrite update_where_lookup.
    destruct (update_where p f (tickets d) !! k) as [t1|] eqn:Hk; [|done].
    cbn -[in_list]. apply Hdone in Hk. unfold p in Hk. by rewrite Hk.
Qed.

Lemma mark_all_completed_twice_witness :
  let d1 := db (mark_all_completed
                  (Sample.request POST Sample.root Sample.no_session)
                  50%Z Sample.helpdesk) in
  open_count d1 = 0
  ∧ db (mark_all_completed
          (Sample.request GET Sample.root Sample.no_session) 90%Z d1) = d1.
Proof.
  apply (mark_all_completed_twice
           (Sample.request POST Sample.root Sample.no_session)
           (Sample.request GET Sample.root Sample.no_session)
           50%Z 90%Z Sample.helpdesk).
  exists Sample.root. split; reflexivity.
Defined.

(** X16. For an admin's POST, deleting one ticket by [delete_ticket] and
    selecting just its id in [delete_selected] leave the same database,
    whether the ticket is completed, not completed or not there: the two
    differ only in what they report. *)
Theorem delete_ticket_as_delete_selected req k d :
  from_admin req → method req = POST →
  db (delete_ticket req k d) = db (delete_selected req [k] d).
Proof.
  intros Ha Hm. unfold delete_ticket, delete_selected.
  rewrite !admin_view by done. rewrite Hm. cbn.
  set (sel := dom (filter (λ kv : nat * Ticket,
                             kv.1 ∈ [k] ∧ status kv.2 = "completed")
                          (tickets d))).
  assert (∀ j, j ∈ sel ↔ j = k ∧ completed_in d k) as Hsel.
  { intros j. unfold sel. rewrite selected_lookup, list_elem_of_singleton.
    unfold completed_in. split.
    - by intros [-> ?].
    - by intros [-> ?]. }
  assert (¬ completed_in d k → delete_tickets sel d = d) as Hnone.
  { intros Hn. apply delete_tickets_none.
    - intros j Hj. apply Hsel in Hj as [_ Hj]. done.
    - intros c cm _ Hj. apply Hsel in Hj as [_ Hj]. done. }
  destruct (tickets d !! k) as [t|] eqn:Ht.
  - destruct (String.eqb_spec (status t) "completed") as [Hs | Hs]; cbn.
    + f_equal. apply set_eq. intros j. rewrite Hsel, elem_of_singleton.
      split; [|tauto]. intros ->. split; [done|]. by exists t.
    + symmetry. apply Hnone. intros (t0 & Ht0 & Hs0). congruence.
  - cbn. symmetry. apply Hnone. intros (t0 & Ht0 & _). congruence.
Qed.

Lemma delete_ticket_as_delete_selected_witness :
  db (delete_ticket (Sample.request POST Sample.root Sample.no_session)
        2 Sample.helpdesk)
  = db (delete_selected (Sample.request POST Sample.root Sample.no_session)
          [2] Sample.helpdesk).
Proof.
  apply (delete_ticket_as_delete_selected
           (Sample.request POST Sample.root Sample.no_session)
           2 Sample.helpdesk).
  - exists Sample.root. split; reflexivity.
  - reflexivity.
Defined.

(** ** The SLA of an updated ticket *)

Lemma sla_status_apply_update p s (now : datetime) t :
  sla_status (apply_update p s now t)
  = if equals s "completed"
    then if (now - created_at t <=? 4 * 3600 * 1000000)%Z
         then "on_time" else "delayed"
    else if truthy s then "open"
    else if String.eqb (status t) "completed" then "delayed" else "open".
Proof.
  unfold sla_status, completed_within_hours.
  rewrite apply_update_status, apply_update_completed_at.
  assert (created_at (apply_update p s now t) = created_at t) as ->
    by apply apply_update_row_kept.
  destruct s as [x|]; simpl.
  - destruct (String.eqb_spec x "completed") as [-> | Hx]; simpl; [done|].
    destruct (String.eqb_spec x "") as [-> | Hne]; simpl.
    + by destruct (status t =? "completed")%string.
    + apply String.eqb_neq in Hx. by rewrite Hx.
  - by destruct (status t =? "completed")%string.
Qed.

Lemma sla_status_set_handler h t : sla_status (set_handler h t) = sla_status t.
Proof. done. Qed.

(** X17. The SLA after a handler's update.  When an accepted update posts
    the status "completed" at time [now], the stored ticket is "on_time"
    if [now] is at most four hours after its creation and "delayed" if it
    is later; when it posts any other status the ticket is "open"; and
    when it posts no status for a completed ticket, the ticket reads
    "delayed", however quickly it had been completed. *)
Theorem sla_after_handler_update req u tid (p s : option string) now d t :
  user req = Some u → method req = POST → handler_gate req d u →
  tickets d !! tid = Some t → handler_binding req u t →
  ∃ t', tickets (db (handler_dashboard req tid p s now d)) !! tid = Some t' ∧
    (s = Some "completed" → (now - created_at t ≤ 4 * 3600 * 1000000)%Z →
     sla_status t' = "on_time") ∧
    (s = Some "completed" → (now - created_at t > 4 * 3600 * 1000000)%Z →
     sla_status t' = "delayed") ∧
    (∀ x, s = Some x → x ≠ "" → x ≠ "completed" → sla_status t' = "open") ∧
    (s = None ∨ s = Some "" → status t = "completed" →
     sla_status t' = "delayed").
Proof.
  intros Hu Hm Hg Ht Hb.
  rewrite (handler_dashboard_accepts req u tid p s now d t) by done.
  simpl. rewrite lookup_insert_eq. eexists. split; [done|].
  assert (sla_status (if is_None (handler t) && is_handler d u
                      then set_handler (Some (user_id u))
                             (apply_update p s now t)
                      else apply_update p s now t)
          = sla_status (apply_update p s now t)) as ->.
  { by destruct (_ && _). }
  rewrite sla_status_apply_update.
  split; [|split; [|split]].
  - intros -> Hle. simpl.
    destruct (Z.leb_spec (now - created_at t) (4 * 3600 * 1000000));
      [done | lia].
  - intros -> Hgt. simpl.
    destruct (Z.leb_spec (now - created_at t) (4 * 3600 * 1000000));
      [lia | done].
  - intros x -> Hne Hnc. simpl.
    apply String.eqb_neq in Hne, Hnc. by rewrite Hne, Hnc.
  - intros Hs Hc. rewrite Hc.
    by destruct Hs as [-> | ->].
Qed.

Lemma sla_after_handler_update_witness :
  ∃ t', tickets (db (handler_dashboard
                       (Sample.request POST Sample.alice Sample.no_session)
                       1 None (Some "completed") 14400000010%Z
                       Sample.helpdesk)) !! 1 = Some t' ∧
    (Some "completed" = Some "completed" →
     (14400000010 - 10 ≤ 4 * 3600 * 1000000)%Z → sla_status t' = "on_time") ∧
    (Some "completed" = Some "completed" →
     (14400000010 - 10 > 4 * 3600 * 1000000)%Z → sla_status t' = "delayed") ∧
    (∀ x, Some "completed" = Some x → x ≠ "" → x ≠ "completed" →
          sla_status t' = "open") ∧
    (Some "completed" = None ∨ Some "completed" = Some "" →
     "pending" = "completed" → sla_status t' = "delayed").
Proof.
  apply (sla_after_handler_update
           (Sample.request POST Sample.alice Sample.no_session) Sample.alice
           1 None (Some "completed") 14400000010%Z Sample.helpdesk
           (Sample.ticket "pending" None 10%Z 3 None) eq_refl eq_refl).
  - right. vm_compute. reflexivity.
  - vm_compute. reflexivity.
  - left. reflexivity.
Defined.

(** X18. The model's predicates agree with each other: a ticket is
    [is_completed] exactly when its SLA is not "open"; it is "on_time"
    exactly when it is completed within four hours; among the hours that
    [timedelta] accepts, a ticket completed within [h] hours is completed
    within any longer span; and a ticket without completion stamp is
    within no span (the source answers before it builds the [timedelta]). *)
Theorem model_predicates_agree (t : Ticket) :
  (is_completed t = true ↔ sla_status t ≠ "open") ∧
  (sla_status t = "on_time"
   ↔ is_completed t = true ∧ completed_within_hours t 4 = true) ∧
  (∀ h h', timedelta_hours h → timedelta_hours h' → (h ≤ h')%Z →
           completed_within_hours t h = true →
           completed_within_hours t h' = true) ∧
  (∀ h, completed_at t = None → completed_within_hours t h = false).
Proof.
  unfold is_completed, sla_status.
  split; [|split; [|split]].
  - destruct (status t =? "completed")%string; simpl.
    + split; [|done]. intros _.
      by destruct (completed_within_hours t 4).
    + split; [done | intros H; by destruct H].
  - destruct (status t =? "completed")%string; simpl.
    + destruct (completed_within_hours t 4); split; try done.
      by intros [_ ?].
    + split; [done | by intros [? _]].
  - intros h h' _ _ Hh. unfold completed_within_hours, timedelta.
    destruct (completed_at t) as [c|]; [|done].
    rewrite !Z.leb_le. nia.
  - intros h Hn. unfold completed_within_hours. by rewrite Hn.
Qed.

Lemma model_predicates_agree_witness :
  completed_within_hours
    (Sample.ticket "completed" (Some 30000020%Z) 20%Z 3 (Some 5)) 4 = true
  ∧ completed_within_hours (Sample.ticket "completed" None 20%Z 3 (Some 5)) 4
    = false.
Proof.
  split.
  - apply (proj1 (proj2 (proj2 (model_predicates_agree
                                  (Sample.ticket "completed" (Some 30000020%Z)
                                     20%Z 3 (Some 5))))) 1%Z 4%Z);
      [unfold timedelta_hours; lia | unfold timedelta_hours; lia
      | lia | reflexivity].
  - apply (proj2 (proj2 (proj2 (model_predicates_agree
                                  (Sample.ticket "completed" None
                                     20%Z 3 (Some 5))))) 4%Z).
    reflexivity.
Defined.

(** ** The dashboards' listings *)

Lemma order_by_filter_lists (p : nat * Ticket → bool) (P : Ticket → Prop) d :
  (∀ k t, p (k, t) = true ↔ P t) →
  lists_exactly
    (order_by_created_at_desc (filter (λ kv, p kv = true) (tickets d))) P d.
Proof.
  intros Hp. split; [|split].
  - intros k t.
    by rewrite order_by_created_at_desc_elem, map_lookup_filter_Some, Hp.
  - apply order_by_created_at_desc_NoDup.
  - apply order_by_created_at_desc_sorted.
Qed.

(** X19. What the dashboards list on a GET, each ticket once and the
    newest first, without changing anything: the admin dashboard lists
    every ticket; the agent dashboard lists the tickets whose agent is the
    user; the handler dashboard lists the tickets whose handler is the
    user and those that have no handler. *)
Theorem dashboards_list req u k p s dep now d :
  user req = Some u → method req = GET →
  (is_superuser u = true →
   ∃ rows, admin_dashboard req k p dep d
           = respond (Render "tickets/admin_dashboard.html" rows) [] d
           ∧ lists_exactly rows (λ _, True) d) ∧
  (is_agent d u = true →
   ∃ rows, agent_dashboard req k p s now d
           = respond (Render "tickets/agent_dashboard.html" rows) [] d
           ∧ lists_exactly rows (λ t, agent t = Some (user_id u)) d) ∧
  (handler_gate req d u →
   ∃ rows, handler_dashboard req k p s now d
           = respond (Render "tickets/handler_dashboard.html" rows) [] d
           ∧ lists_exactly rows
               (λ t, handler t = None ∨ handler t = Some (user_id u)) d).
Proof.
  intros Hu Hm. split; [|split].
  - intros Hs. unfold admin_dashboard.
    rewrite admin_view by (by exists u). rewrite Hm.
    eexists. split; [done|].
    split; [|split].
    + intros j t. rewrite order_by_created_at_desc_elem. tauto.
    + apply order_by_created_at_desc_NoDup.
    + apply order_by_created_at_desc_sorted.
  - intros Ha. unfold agent_dashboard, login_required, user_passes_test.
    rewrite Hu, Ha, Hm. eexists. split; [done|].
    apply (order_by_filter_lists (λ kv, fk_is (agent kv.2) u)).
    intros j t. simpl. apply fk_is_true.
  - intros Hg. apply handler_gate_test in Hg.
    unfold handler_dashboard, login_required.
    rewrite Hu, Hg, Hm. eexists. split; [done|].
    apply (order_by_filter_lists
             (λ kv, is_None (handler kv.2) || fk_is (handler kv.2) u)).
    intros j t. simpl. by rewrite orb_true_iff, is_None_true, fk_is_true.
Qed.

Lemma dashboards_list_witness :
  let req := Sample.request GET Sample.bob Sample.no_session in
  (is_superuser Sample.bob = true →
   ∃ rows, admin_dashboard req 0 None None Sample.helpdesk
           = respond (Render "tickets/admin_dashboard.html" rows) []
               Sample.helpdesk
           ∧ lists_exactly rows (λ _, True) Sample.helpdesk) ∧
  (is_agent Sample.helpdesk Sample.bob = true →
   ∃ rows, agent_dashboard req 0 None None 99%Z Sample.helpdesk
           = respond (Render "tickets/agent_dashboard.html" rows) []
               Sample.helpdesk
           ∧ lists_exactly rows (λ t, agent t = Some (user_id Sample.bob))
               Sample.helpdesk) ∧
  (handler_gate req Sample.helpdesk Sample.bob →
   ∃ rows, handler_dashboard req 0 None None 99%Z Sample.helpdesk
           = respond (Render "tickets/handler_dashboard.html" rows) []
               Sample.helpdesk
           ∧ lists_exactly rows
               (λ t, handler t = None ∨ handler t = Some (user_id Sample.bob))
               Sample.helpdesk).
Proof.
  apply (dashboards_list (Sample.request GET Sample.bob Sample.no_session)
           Sample.bob 0 None None None 99%Z Sample.helpdesk
           eq_refl eq_refl).
Defined.

(** Bob's handler dashboard on the sample database: the two tickets
    without handler, the newer first; Alice's ticket 2 is not his. *)
Example handler_dashboard_sample :
  ∃ t4 t1,
    response (handler_dashboard
                (Sample.request GET Sample.bob Sample.no_session)
                0 None None 99%Z Sample.helpdesk)
    = Render "tickets/handler_dashboard.html" [(4, t4); (1, t1)].
Proof. eexists _, _. vm_compute. reflexivity. Qed.

(** ** A ticket's way through the owner's list *)

Lemma submit_ticket_stores req u ti de dep (now : datetime) d :
  user req = Some u → method req = POST →
  ∃ k h dp,
    tickets d !! k = None
    ∧ (dp = match dep with
            | Some j => match departments d !! j with
                        | Some _ => Some j
                        | None => None
                        end
            | None => None
            end)
    ∧ db (submit_ticket req (Some ti) (Some de) dep now d)
      = with_tickets
          (<[k := {| title := ti; description := de;
                     created_by := user_id u; agent := None; handler := h;
                     department := dp; status := "pending";
                     completed_at := None; created_at := now;
                     sla_due := None; priority := "medium" |}]> (tickets d)) d.
Proof.
  intros Hu Hm. unfold submit_ticket, login_required, create_ticket.
  rewrite Hu, Hm. eexists _, _, _.
  split; [apply not_elem_of_dom, is_fresh |]. split; reflexivity.
Qed.

(** X20. A submission adds one ticket and touches nothing else.  After a
    POST of [submit_ticket] with title and description there is one more
    ticket, under a key that was free; it carries the posted title and
    description, the current time as [created_at], no agent and no
    [sla_due]; its department is the posted one when that names a
    department and null when it names none or none was posted.  All other
    tickets and all comments are as before. *)
Theorem submit_ticket_adds_one req u ti de dep (now : datetime) d :
  user req = Some u → method req = POST →
  let d' := db (submit_ticket req (Some ti) (Some de) dep now d) in
  ∃ k t,
    tickets d !! k = None ∧ tickets d' !! k = Some t
    ∧ (∀ j, j ≠ k → tickets d' !! j = tickets d !! j)
    ∧ size (tickets d') = S (size (tickets d))
    ∧ comments d' = comments d
    ∧ title t = ti ∧ description t = de ∧ created_at t = now
    ∧ agent t = None ∧ sla_due t = None
    ∧ (dep = None → department t = None)
    ∧ (∀ j, dep = Some j → is_Some (departments d !! j) →
            department t = Some j)
    ∧ (∀ j, dep = Some j → departments d !! j = None → department t = None).
Proof.
  intros Hu Hm d'.
  destruct (submit_ticket_stores req u ti de dep now d Hu Hm)
    as (k & h & dp & Hk & Hdp & Hd').
  subst d'. rewrite Hd'. simpl. eexists k, _.
  split; [done|]. split; [apply lookup_insert_eq |].
  split; [intros j Hj; by rewrite lookup_insert_ne |].
  split; [by apply map_size_insert_None |].
  split; [done|]. simpl. do 5 (split; [done|]).
  subst dp. split; [by intros -> | split].
  - intros j -> [x Hx]. by rewrite Hx.
  - intros j -> Hj. by rewrite Hj.
Qed.

Lemma submit_ticket_adds_one_witness :
  let d' := db (submit_ticket
                  (Sample.request POST Sample.carol Sample.no_session)
                  (Some "VPN down") (Some "since 9") (Some 1) 99%Z
                  Sample.helpdesk) in
  ∃ k t,
    tickets Sample.helpdesk !! k = None ∧ tickets d' !! k = Some t
    ∧ (∀ j, j ≠ k → tickets d' !! j = tickets Sample.helpdesk !! j)
    ∧ size (tickets d') = S (size (tickets Sample.helpdesk))
    ∧ comments d' = comments Sample.helpdesk
    ∧ title t = "VPN down" ∧ description t = "since 9" ∧ created_at t = 99%Z
    ∧ agent t = None ∧ sla_due t = None
    ∧ (Some 1 = None → department t = None)
    ∧ (∀ j, Some 1 = Some j → is_Some (departments Sample.helpdesk !! j) →
            department t = Some j)
    ∧ (∀ j, Some 1 = Some j → departments Sample.helpdesk !! j = None →
            department t = None).
Proof.
  apply (submit_ticket_adds_one
           (Sample.request POST Sample.carol Sample.no_session) Sample.carol
           "VPN down" "since 9" (Some 1) 99%Z Sample.helpdesk
           eq_refl eq_refl).
Defined.

Lemma user_tickets_rows req u (now : datetime) d k t :
  user req = Some u →
  ∃ rows,
    response (user_tickets req now d) = Render "tickets/user_tickets.html" rows
    ∧ ((k, t) ∈ rows
       ↔ tickets d !! k = Some t ∧ visible_to_owner (user_id u) now t).
Proof.
  intros Hu. unfold user_tickets, login_required. rewrite Hu.
  eexists. split; [done|].
  by rewrite order_by_created_at_desc_elem, map_lookup_filter_Some,
       own_visible_spec.
Qed.

(** X21. A submitted ticket is in its owner's list from then on: whenever
    the submitter opens [user_tickets] on the database the submission left,
    the new ticket is among the rows. *)
Theorem submitted_ticket_is_listed req req' u ti de dep (now later : datetime) d :
  user req = Some u → method req = POST → user req' = Some u →
  let d' := db (submit_ticket req (Some ti) (Some de) dep now d) in
  ∃ k t rows,
    tickets d !! k = None ∧ tickets d' !! k = Some t
    ∧ response (user_tickets req' later d')
      = Render "tickets/user_tickets.html" rows
    ∧ (k, t) ∈ rows.
Proof.
  intros Hu Hm Hu' d'.
  destruct (submit_ticket_stores req u ti de dep now d Hu Hm)
    as (k & h & dp & Hk & _ & Hd').
  subst d'. rewrite Hd'.
  set (t := {| title := ti; description := de; created_by := user_id u;
               agent := None; handler := h; department := dp;
               status := "pending"; completed_at := None; created_at := now;
               sla_due := None; priority := "medium" |}).
  destruct (user_tickets_rows req' u later
              (with_tickets (<[k := t]> (tickets d)) d) k t Hu')
    as (rows & Hrows & Hin).
  exists k, t, rows. split; [done|].
  split; [apply lookup_insert_eq |]. split; [done|].
  apply Hin. split; [apply lookup_insert_eq |].
  split; [done | by left].
Qed.

Lemma submitted_ticket_is_listed_witness :
  let d' := db (submit_ticket
                  (Sample.request POST Sample.carol Sample.no_session)
                  (Some "VPN down") (Some "since 9") None 99%Z
                  Sample.helpdesk) in
  ∃ k t rows,
    tickets Sample.helpdesk !! k = None ∧ tickets d' !! k = Some t
    ∧ response (user_tickets
                  (Sample.request GET Sample.carol Sample.no_session)
                  999999999999%Z d')
      = Render "tickets/user_tickets.html" rows
    ∧ (k, t) ∈ rows.
Proof.
  apply (submitted_ticket_is_listed
           (Sample.request POST Sample.carol Sample.no_session)
           (Sample.request GET Sample.carol Sample.no_session)
           Sample.carol "VPN down" "since 9" None 99%Z 999999999999%Z
           Sample.helpdesk eq_refl eq_refl eq_refl).
Defined.

(** X22. A completed ticket leaves its owner's list two minutes later.
    After a handler's accepted update has set a ticket to "completed" at
    time [now], the owner's list opened at time [later] shows the ticket
    exactly when [later] is less than two minutes after [now]. *)
Theorem completed_ticket_leaves_the_list
    req req' u o tid (p : option string) (now later : datetime) d t :
  user req = Some u → method req = POST → handler_gate req d u →
  tickets d !! tid = Some t → handler_binding req u t →
  user req' = Some o → created_by t = user_id o →
  let d' := db (handler_dashboard req tid p (Some "completed") now d) in
  ∃ t' rows,
    tickets d' !! tid = Some t'
    ∧ response (user_tickets req' later d')
      = Render "tickets/user_tickets.html" rows
    ∧ ((tid, t') ∈ rows ↔ (later - now < 2 * 60 * 1000000)%Z).
Proof.
  intros Hu Hm Hg Ht Hb Ho Hown d'. subst d'.
  rewrite (handler_dashboard_accepts req u tid p (Some "completed") now d t)
    by done.
  cbn [db respond].
  set (t' := if is_None (handler t) && is_handler d u
             then set_handler (Some (user_id u))
                    (apply_update p (Some "completed") now t)
             else apply_update p (Some "completed") now t).
  assert (status t' = "completed" ∧ completed_at t' = Some now
          ∧ created_by t' = created_by t) as (Hs & Hc & Hcb).
  { subst t'. pose proof (apply_update_row_kept p (Some "completed") now t)
      as (_ & _ & Hcb & _).
    pose proof (apply_update_status p (Some "completed") now t) as HsA.
    pose proof (apply_update_completed_at p (Some "completed") now t) as HcA.
    simpl in HsA, HcA.
    destruct (_ && _); repeat split;
      first [exact HsA | exact HcA | exact Hcb]. }
  destruct (user_tickets_rows req' o later
              (with_tickets (<[tid := t']> (tickets d)) d) tid t' Ho)
    as (rows & Hrows & Hin).
  exists t', rows. split; [apply lookup_insert_eq |]. split; [done|].
  rewrite Hin. unfold visible_to_owner. rewrite Hs, Hc. split.
  - intros (_ & _ & [Hp | [Hp | (_ & c & [= <-] & Hlt)]]);
      [discriminate | discriminate | done].
  - intros Hlt. split; [apply lookup_insert_eq |].
    split; [congruence |]. right. right. split; [done|]. by exists now.
Qed.

Lemma completed_ticket_leaves_the_list_witness :
  let d' := db (handler_dashboard
                  (Sample.request POST Sample.bob Sample.no_session)
                  4 None (Some "completed") 1000%Z Sample.helpdesk) in
  ∃ t' rows,
    tickets d' !! 4 = Some t'
    ∧ response (user_tickets
                  (Sample.request GET Sample.carol Sample.no_session)
                  120001000%Z d')
      = Render "tickets/user_tickets.html" rows
    ∧ ((4, t') ∈ rows ↔ (120001000 - 1000 < 2 * 60 * 1000000)%Z).
Proof.
  apply (completed_ticket_leaves_the_list
           (Sample.request POST Sample.bob Sample.no_session)
           (Sample.request GET Sample.carol Sample.no_session)
           Sample.bob Sample.carol 4 None 1000%Z 120001000%Z Sample.helpdesk
           (Sample.ticket "in_progress" None 30%Z 3 None) eq_refl eq_refl).
  - right. vm_compute. reflexivity.
  - vm_compute. reflexivity.
  - left. reflexivity.
  - reflexivity.
  - reflexivity.
Defined.

(** ** Comments *)

Lemma append_nil (r : string) : "" ++ r = r.
Proof. reflexivity. Qed.

Lemma append_cons c (l r : string) : String c l ++ r = String c (l ++ r).
Proof. reflexivity. Qed.

Lemma all_space_app l r : all_space (l ++ r) = all_space l && all_space r.
Proof.
  induction l as [|c l IH]; [done|].
  rewrite append_cons. simpl. by rewrite IH, andb_assoc.
Qed.

Lemma lstrip_split s :
  ∃ l, s = l ++ lstrip s ∧ all_space l = true
       ∧ starts_with_space (lstrip s) = false.
Proof.
  induction s as [|c s (l & Hs & Hl & Hst)]; [by exists "" |].
  simpl. destruct (isspace c) eqn:Hc.
  - exists (String c l). rewrite append_cons, <- Hs. simpl. by rewrite Hc, Hl.
  - exists "". rewrite append_nil. simpl. by rewrite Hc.
Qed.

Lemma rstrip_split s :
  ∃ r, s = rstrip s ++ r ∧ all_space r = true
       ∧ ends_with_space (rstrip s) = false.
Proof.
  induction s as [|c s (r & Hs & Hr & He)]; [by exists "" |].
  simpl. destruct (isspace c && (rstrip s =? "")%string) eqn:Hc.
  - apply andb_true_iff in Hc as [Hc H0]. apply String.eqb_eq in H0.
    exists (String c s). rewrite append_nil. simpl. rewrite Hc.
    split; [done|]. split; [|done].
    rewrite H0, append_nil in Hs. by rewrite Hs.
  - exists r. rewrite append_cons, <- Hs. split; [done | split; [done |]].
    destruct (rstrip s) as [|c' s'] eqn:Hrs; [|done].
    simpl in Hc. by rewrite andb_true_r in Hc.
Qed.

Lemma rstrip_keeps_start s :
  starts_with_space s = false → starts_with_space (rstrip s) = false.
Proof.
  destruct s as [|c s]; simpl; [done|].
  intros Hc. rewrite Hc. simpl. exact Hc.
Qed.

Lemma rstrip_all_space s : all_space s = true → rstrip s = "".
Proof.
  induction s as [|c s IH]; simpl; [done|].
  intros [Hc Hs]%andb_true_iff. by rewrite (IH Hs), Hc.
Qed.

Lemma lstrip_all_space s : all_space s = true → lstrip s = "".
Proof.
  induction s as [|c s IH]; simpl; [done|].
  intros [Hc Hs]%andb_true_iff. by rewrite Hc, (IH Hs).
Qed.

Lemma strip_empty s : strip s = "" ↔ all_space s = true.
Proof.
  unfold strip. split.
  - intros He. destruct (lstrip_split s) as (l & Hs & Hl & _).
    destruct (rstrip_split (lstrip s)) as (r & Hls & Hr & _).
    rewrite He, append_nil in Hls.
    rewrite Hs, all_space_app, Hl, Hls. done.
  - intros Ha. by rewrite (lstrip_all_space s Ha).
Qed.

Lemma strip_split s :
  ∃ l r, s = l ++ strip s ++ r ∧ all_space l = true ∧ all_space r = true
         ∧ starts_with_space (strip s) = false
         ∧ ends_with_space (strip s) = false.
Proof.
  destruct (lstrip_split s) as (l & Hs & Hl & Hst).
  destruct (rstrip_split (lstrip s)) as (r & Hls & Hr & He).
  exists l, r. unfold strip. rewrite <- Hls.
  split; [done|]. split; [done|]. split; [done|].
  split; [by apply rstrip_keeps_start | done].
Qed.

(** X23. A comment that is missing, empty or made of whitespace only is
    dropped in silence: the POST is answered with the redirect to the
    ticket page, no message is queued and the database is as it was. *)
Theorem blank_comment_is_dropped req u k text now d t :
  user req = Some u → method req = POST → tickets d !! k = Some t →
  text = None ∨ (∃ s, text = Some s ∧ all_space s = true) →
  ticket_detail req k text now d = respond (Redirect "ticket_detail") [] d.
Proof.
  intros Hu Hm Ht Hblank. unfold ticket_detail, login_required.
  rewrite Hu, Ht, Hm.
  destruct Hblank as [-> | (s & -> & Hs)]; [done|].
  apply strip_empty in Hs. simpl. rewrite Hs. simpl.
  by rewrite andb_false_r.
Qed.

Lemma blank_comment_is_dropped_witness :
  ticket_detail (Sample.request POST Sample.carol Sample.no_session)
    1 (Some "   ") 99%Z Sample.helpdesk
  = respond (Redirect "ticket_detail") [] Sample.helpdesk.
Proof.
  apply (blank_comment_is_dropped
           (Sample.request POST Sample.carol Sample.no_session) Sample.carol
           1 (Some "   ") 99%Z Sample.helpdesk
           (Sample.ticket "pending" None 10%Z 3 None) eq_refl eq_refl).
  - vm_compute. reflexivity.
  - right. exists "   ". split; reflexivity.
Defined.

Lemma ticket_comments_elem k d c cm :
  (c, cm) ∈ ticket_comments k d
  ↔ comments d !! c = Some cm ∧ comment_ticket cm = k.
Proof.
  unfold ticket_comments.
  by rewrite merge_sort_Permutation, elem_of_map_to_list,
       map_lookup_filter_Some.
Qed.

(** X24. A comment with text is stored stripped.  For a POST on an
    existing ticket whose comment has a character that is no whitespace,
    one comment is added under a free key, for that ticket, by the posting
    user, stamped with the current time, and "Comment added." is reported;
    tickets and the other comments are as before.  The stored text is the
    posted text without its leading and trailing whitespace: the posted
    text is whitespace, then the stored text, then whitespace, and the
    stored text neither starts nor ends with whitespace.  The ticket page
    shows the new comment. *)
Theorem comment_is_stored_stripped req u k s (now : datetime) d t :
  user req = Some u → method req = POST → tickets d !! k = Some t →
  all_space s = false →
  ∃ c cm l r,
    comments d !! c = None
    ∧ ticket_detail req k (Some s) now d
      = respond (Redirect "ticket_detail") [(Success, "Comment added.")]
          (with_comments (<[c := cm]> (comments d)) d)
    ∧ comment_ticket cm = k ∧ comment_user cm = user_id u
    ∧ comment_created_at cm = now
    ∧ s = l ++ comment_text cm ++ r
    ∧ all_space l = true ∧ all_space r = true
    ∧ starts_with_space (comment_text cm) = false
    ∧ ends_with_space (comment_text cm) = false
    ∧ comment_text cm ≠ ""
    ∧ (c, cm) ∈ ticket_comments k (db (ticket_detail req k (Some s) now d)).
Proof.
  intros Hu Hm Ht Hs.
  assert (strip s ≠ "") as Hne.
  { intros He. apply strip_empty in He. congruence. }
  assert (s ≠ "") as Hs0 by (by intros ->).
  assert (ticket_detail req k (Some s) now d
          = respond (Redirect "ticket_detail") [(Success, "Comment added.")]
              (with_comments
                 (<[fresh (dom (comments d)) :=
                      {| comment_ticket := k; comment_user := user_id u;
                         comment_text := strip s;
                         comment_created_at := now |}]> (comments d)) d))
    as Heq.
  { unfold ticket_detail, login_required, create_comment.
    rewrite Hu, Ht, Hm. simpl.
    apply String.eqb_neq in Hne, Hs0. by rewrite Hne, Hs0. }
  destruct (strip_split s) as (l & r & Hsplit & Hl & Hr & Hst & Hen).
  eexists _, _, l, r. split; [apply not_elem_of_dom, is_fresh |].
  split; [exact Heq |]. simpl.
  do 3 (split; [done|]). split; [exact Hsplit |].
  do 5 (split; [done|]).
  rewrite Heq. apply ticket_comments_elem. simpl.
  by rewrite lookup_insert_eq.
Qed.

Lemma comment_is_stored_stripped_witness :
  ∃ c cm l r,
    comments Sample.helpdesk !! c = None
    ∧ ticket_detail (Sample.request POST Sample.carol Sample.no_session)
        1 (Some "  still stuck ") 99%Z Sample.helpdesk
      = respond (Redirect "ticket_detail") [(Success, "Comment added.")]
          (with_comments (<[c := cm]> (comments Sample.helpdesk))
             Sample.helpdesk)
    ∧ comment_ticket cm = 1 ∧ comment_user cm = user_id Sample.carol
    ∧ comment_created_at cm = 99%Z
    ∧ "  still stuck " = l ++ comment_text cm ++ r
    ∧ all_space l = true ∧ all_space r = true
    ∧ starts_with_space (comment_text cm) = false
    ∧ ends_with_space (comment_text cm) = false
    ∧ comment_text cm ≠ ""
    ∧ (c, cm) ∈ ticket_comments 1
                  (db (ticket_detail
                         (Sample.request POST Sample.carol Sample.no_session)
                         1 (Some "  still stuck ") 99%Z Sample.helpdesk)).
Proof.
  apply (comment_is_stored_stripped
           (Sample.request POST Sample.carol Sample.no_session) Sample.carol
           1 "  still stuck " 99%Z Sample.helpdesk
           (Sample.ticket "pending" None 10%Z 3 None) eq_refl eq_refl).
  - vm_compute. reflexivity.
  - reflexivity.
Defined.

(** The sample comment, as stored. *)
Example comment_sample :
  ∃ cm, comments (db (ticket_detail
                        (Sample.request POST Sample.carol Sample.no_session)
                        1 (Some "  still stuck ") 99%Z Sample.helpdesk)) !! 3
        = Some cm
        ∧ comment_text cm = "still stuck".
Proof. eexists. split; [vm_compute; reflexivity | done]. Qed.

(** ** The landing page *)

(** X26. [after_login] sends a logged-in user to a page that lets them
    in: it answers with a redirect, changes nothing, and the page behind
    the redirect, requested with GET by the same user, is rendered rather
    than bounced to the login page.  A superuser lands on the admin
    dashboard whatever groups they are in; the agent dashboard is chosen
    only for members of the Agent group and the handler dashboard only for
    members of the Handler group. *)
Theorem after_login_lands req u now d :
  user req = Some u →
  ∃ to c tpl rows,
    after_login req d = respond (Redirect to) [] d
    ∧ landing to = Some c
    ∧ response (urlpatterns c (as_get req) now d) = Render tpl rows
    ∧ (is_superuser u = true ↔ to = "admin_dashboard")
    ∧ (to = "agent_dashboard" → is_agent d u = true)
    ∧ (to = "handler_dashboard" → is_handler d u = true).
Proof.
  intros Hu. unfold after_login, login_required. rewrite Hu.
  destruct (is_superuser u) eqn:Hs; [|destruct (is_agent d u) eqn:Ha;
                                       [|destruct (is_handler d u) eqn:Hh]].
  - eexists "admin_dashboard", _, _, _. split; [done|]. split; [done|].
    split; [|done]. simpl.
    unfold admin_dashboard, login_required, user_passes_test, is_admin. simpl.
    by rewrite Hu, Hs.
  - eexists "agent_dashboard", _, _, _. split; [done|]. split; [done|].
    split; [|split; [split; discriminate | done]]. simpl.
    unfold agent_dashboard, login_required, user_passes_test. simpl.
    by rewrite Hu, Ha.
  - eexists "handler_dashboard", _, _, _. split; [done|]. split; [done|].
    split; [|split; [split; discriminate | done]]. simpl.
    unfold handler_dashboard, login_required. simpl.
    by rewrite Hu, Hh, orb_true_r.
  - eexists "submit_ticket", _, _, _. split; [done|]. split; [done|].
    split; [|split; [split; discriminate | done]]. simpl.
    unfold submit_ticket, login_required. simpl. by rewrite Hu.
Qed.

Lemma after_login_lands_witness :
  ∃ to c tpl rows,
    after_login (Sample.request POST Sample.alice Sample.no_session)
      Sample.helpdesk
    = respond (Redirect to) [] Sample.helpdesk
    ∧ landing to = Some c
    ∧ response (urlpatterns c
                  (as_get (Sample.request POST Sample.alice Sample.no_session))
                  99%Z Sample.helpdesk)
      = Render tpl rows
    ∧ (is_superuser Sample.alice = true ↔ to = "admin_dashboard")
    ∧ (to = "agent_dashboard" → is_agent Sample.helpdesk Sample.alice = true)
    ∧ (to = "handler_dashboard" →
       is_handler Sample.helpdesk Sample.alice = true).
Proof.
  apply (after_login_lands
           (Sample.request POST Sample.alice Sample.no_session) Sample.alice
           99%Z Sample.helpdesk eq_refl).
Defined.

(** ** One ticket at a time *)

Lemma insert_existing_frame (d : Database) k t t' :
  tickets d !! k = Some t →
  let d' := with_tickets (<[k := t']> (tickets d)) d in
  (∀ j, j ≠ k → tickets d' !! j = tickets d !! j)
  ∧ dom (tickets d') = dom (tickets d)
  ∧ comments d' = comments d.
Proof.
  intros Ht d'. subst d'. simpl. split; [|split; [|done]].
  - intros j Hj. by rewrite lookup_insert_ne.
  - apply dom_insert_lookup_L. by exists t.
Qed.

(** X27. A dashboard request writes at most the ticket it names.  After
    any request to the admin, agent or handler dashboard, accepted or not,
    every other ticket is as before, no ticket has appeared or gone, and
    the comments are untouched. *)
Theorem dashboards_touch_one_ticket req k (p s : option string) dep now d d' :
  d' = db (admin_dashboard req k p dep d)
  ∨ d' = db (agent_dashboard req k p s now d)
  ∨ d' = db (handler_dashboard req k p s now d) →
  (∀ j, j ≠ k → tickets d' !! j = tickets d !! j)
  ∧ dom (tickets d') = dom (tickets d)
  ∧ comments d' = comments d.
Proof.
  intros [-> | [-> | ->]].
  - unfold admin_dashboard, login_required, user_passes_test.
    destruct (user req) as [u|]; [|done].
    destruct (is_admin u); [|done].
    destruct (method req); [done|].
    destruct (tickets d !! k) as [t|] eqn:Ht; [|done].
    cbn [db respond]. by eapply insert_existing_frame.
  - unfold agent_dashboard, login_required, user_passes_test.
    destruct (user req) as [u|]; [|done].
    destruct (is_agent d u); [|done].
    destruct (method req); [done|].
    destruct (tickets d !! k) as [t|] eqn:Ht; [|done].
    destruct (_ || _); [|done].
    cbn [db respond]. by eapply insert_existing_frame.
  - unfold handler_dashboard, login_required.
    destruct (user req) as [u|]; [|done].
    destruct (negb _); [done|].
    destruct (method req); [done|].
    destruct (tickets d !! k) as [t|] eqn:Ht; [|done].
    destruct (_ || _); [|done].
    cbn [db respond]. by eapply insert_existing_frame.
Qed.

Lemma dashboards_touch_one_ticket_witness :
  let d' := db (handler_dashboard
                  (Sample.request POST Sample.alice Sample.no_session)
                  2 (Some "low") (Some "pending") 99%Z Sample.helpdesk) in
  (∀ j, j ≠ 2 → tickets d' !! j = tickets Sample.helpdesk !! j)
  ∧ dom (tickets d') = dom (tickets Sample.helpdesk)
  ∧ comments d' = comments Sample.helpdesk.
Proof.
  apply (dashboards_touch_one_ticket
           (Sample.request POST Sample.alice Sample.no_session)
           2 (Some "low") (Some "pending") None 99%Z Sample.helpdesk).
  right. right. reflexivity.
Defined.
